(** * gs_chat: SQL query guard and template renderer

    Shallow embedding of
    - [gs_chat/controllers/layers/sql_validator.py] ([SQLValidator],
      [validate_and_execute_query]),
    - [gs_chat/controllers/layers/template_renderer.py] ([render_template]),
    - [gs_chat/controllers/chat.py] ([render_template], the version the chat
      endpoint calls).

    Python text is modelled as Rocq [string]s over ASCII (code points
    0..127); the character predicates below ([is_space], [is_word], case
    mapping) are Python's on that range.  The [re] module is modelled by a
    backtracking matcher in continuation-passing style, with the
    search/findall/sub drivers and the replacement-template compiler of
    [re.sub]. *)

From Stdlib Require Import String Ascii List Bool Arith Lia ZArith.
From Stdlib Require QArith.
From Stdlib Require Import Sorted.
Import ListNotations.

Open Scope string_scope.
Set Warnings "-register-all".

(** ** Python runtime fragment *)

(** Exceptions that the modelled code can raise. *)
Inductive exn : Type :=
| ReError (msg : string)        (* re.error *)
| TypeError (msg : string)
| KeyError
| IndexError (msg : string)
| External (what : string).     (* raised by a frappe collaborator *)

Inductive result (A : Type) : Type :=
| Ok (a : A)
| Raise (e : exn).
Arguments Ok {A} a.
Arguments Raise {A} e.

Definition bind {A B : Type} (m : result A) (f : A -> result B) : result B :=
  match m with
  | Ok a => f a
  | Raise e => Raise e
  end.

Notation "'let!' x := m 'in' k" := (bind m (fun x => k))
  (at level 200, x name, m at level 100, k at level 200).

(** *** Characters *)

Definition is_space (c : ascii) : bool :=
  let n := nat_of_ascii c in
  (((9 <=? n) && (n <=? 13)) || ((28 <=? n) && (n <=? 32)))%nat.

Definition is_upper (c : ascii) : bool :=
  let n := nat_of_ascii c in ((65 <=? n) && (n <=? 90))%nat.

Definition is_lower (c : ascii) : bool :=
  let n := nat_of_ascii c in ((97 <=? n) && (n <=? 122))%nat.

Definition is_digit (c : ascii) : bool :=
  let n := nat_of_ascii c in ((48 <=? n) && (n <=? 57))%nat.

Definition is_octal (c : ascii) : bool :=
  let n := nat_of_ascii c in ((48 <=? n) && (n <=? 55))%nat.

Definition is_letter (c : ascii) : bool := is_upper c || is_lower c.

(** [\w] of a [str] pattern. *)
Definition is_word (c : ascii) : bool :=
  is_letter c || is_digit c || Ascii.eqb c "_"%char.

Definition to_upper (c : ascii) : ascii :=
  if is_lower c then ascii_of_nat (nat_of_ascii c - 32) else c.

Definition to_lower (c : ascii) : ascii :=
  if is_upper c then ascii_of_nat (nat_of_ascii c + 32) else c.

Definition digit_val (c : ascii) : nat := nat_of_ascii c - 48.

(** *** str methods *)

Fixpoint smap (f : ascii -> ascii) (s : string) : string :=
  match s with
  | EmptyString => EmptyString
  | String c s' => String (f c) (smap f s')
  end.

(** [s.upper()] and [s.lower()]. *)
Definition py_upper : string -> string := smap to_upper.
Definition py_lower : string -> string := smap to_lower.

Fixpoint lstrip (s : string) : string :=
  match s with
  | String c s' => if is_space c then lstrip s' else s
  | EmptyString => EmptyString
  end.

Fixpoint rstrip (s : string) : string :=
  match s with
  | EmptyString => EmptyString
  | String c s' =>
      let r := rstrip s' in
      if is_space c && String.eqb r "" then "" else String c r
  end.

(** [s.strip()] *)
Definition py_strip (s : string) : string := rstrip (lstrip s).

(** [s.split()] (no separator: runs of whitespace, no empty fields). *)
Fixpoint split_ws_aux (s cur : string) : list string :=
  match s with
  | EmptyString => if String.eqb cur "" then [] else [cur]
  | String c s' =>
      if is_space c then
        (if String.eqb cur "" then split_ws_aux s' ""
         else cur :: split_ws_aux s' "")
      else split_ws_aux s' (cur ++ String c "")
  end.

Definition py_split (s : string) : list string := split_ws_aux s "".

(** [s.split(d)] for a one-character separator. *)
Fixpoint split_on (d : ascii) (s : string) : list string :=
  match s with
  | EmptyString => [""]
  | String c s' =>
      if Ascii.eqb c d then "" :: split_on d s'
      else match split_on d s' with
           | [] => [String c ""]
           | w :: ws => String c w :: ws
           end
  end.

(** [needle in hay] for strings. *)
Fixpoint contains (needle hay : string) : bool :=
  String.prefix needle hay ||
  match hay with
  | EmptyString => false
  | String _ h' => contains needle h'
  end.

(** [s.startswith(p)] *)
Definition startswith (s p : string) : bool := String.prefix p s.

(** [s[n:]] *)
Fixpoint sdrop (n : nat) (s : string) : string :=
  match n, s with
  | 0, _ => s
  | S n', String _ s' => sdrop n' s'
  | S _, EmptyString => EmptyString
  end.

(** [str(n)] for a non-negative int. *)
Fixpoint dec_aux (fuel n : nat) (acc : string) : string :=
  match fuel with
  | 0 => acc
  | S f =>
      let acc' := String (ascii_of_nat (48 + n mod 10)) acc in
      if (n <? 10)%nat then acc' else dec_aux f (n / 10) acc'
  end.

Definition dec (n : nat) : string := dec_aux (S n) n "".

(** [int(s)] for a string of ASCII digits (what [\d+] captures). *)
Fixpoint int_digits_aux (s : string) (acc : nat) : nat :=
  match s with
  | EmptyString => acc
  | String c s' => int_digits_aux s' (acc * 10 + digit_val c)
  end.

Definition int_digits (s : string) : nat := int_digits_aux s 0.

Fixpoint all_chars (p : ascii -> bool) (s : string) : bool :=
  match s with
  | EmptyString => true
  | String c s' => p c && all_chars p s'
  end.

Fixpoint join (sep : string) (l : list string) : string :=
  match l with
  | [] => ""
  | [x] => x
  | x :: l' => x ++ sep ++ join sep l'
  end.

Fixpoint concat_str (l : list string) : string :=
  match l with
  | [] => ""
  | x :: l' => x ++ concat_str l'
  end.

(** ** The [re] module *)

Module Re.

(** Regular-expression syntax used by the modelled patterns.  [Chr] is a
    literal character (folded under IGNORECASE), [Cls] a character class,
    [Any] is [.], [Star g r] is [r*] (greedy when [g]) and [Bound] is [\b]. *)
Inductive re : Type :=
| Chr (c : ascii)
| Cls (p : ascii -> bool)
| Any
| Eps
| Seq (r1 r2 : re)
| Alt (r1 r2 : re)
| Star (greedy : bool) (r : re)
| Grp (n : nat) (r : re)
| Bound.

Definition plus (r : re) : re := Seq r (Star true r).
Definition opt (r : re) : re := Alt r Eps.

(** A literal word, character by character. *)
Fixpoint lits (s : string) : re :=
  match s with
  | EmptyString => Eps
  | String c s' => Seq (Chr c) (lits s')
  end.

Fixpoint seqs (l : list re) : re :=
  match l with
  | [] => Eps
  | [r] => r
  | r :: l' => Seq r (seqs l')
  end.

Fixpoint alts (l : list re) : re :=
  match l with
  | [] => Eps
  | [r] => r
  | r :: l' => Alt r (alts l')
  end.

(** Number of capture groups ([pattern.groups]). *)
Fixpoint groups (r : re) : nat :=
  match r with
  | Seq r1 r2 | Alt r1 r2 => groups r1 + groups r2
  | Star _ r1 => groups r1
  | Grp _ r1 => S (groups r1)
  | _ => 0
  end.

Definition ws : re := Cls is_space.                               (* \s *)
Definition word : re := Cls is_word.                              (* \w *)
Definition digit : re := Cls is_digit.                            (* \d *)
Definition not_brace : re :=                                      (* [^{}] *)
  Cls (fun c => negb (Ascii.eqb c "{"%char || Ascii.eqb c "}"%char)).
Definition word_or_dot : re :=                                    (* [\w.] *)
  Cls (fun c => is_word c || Ascii.eqb c "."%char).

(** Matcher state: position, previous character (for [\b]), the rest of
    the subject, and the spans of the groups matched so far. *)
Record mstate : Type := MS {
  ms_pos : nat;
  ms_prev : option ascii;
  ms_rest : string;
  ms_caps : list (nat * (nat * nat))
}.

Section Matcher.

Variables icase dotall : bool.

Definition chr_eq (c d : ascii) : bool :=
  if icase then Ascii.eqb (to_lower c) (to_lower d) else Ascii.eqb c d.

Definition step (st : mstate) (c : ascii) (s : string) : mstate :=
  MS (S (ms_pos st)) (Some c) s (ms_caps st).

Definition at_bound (st : mstate) : bool :=
  let a := match ms_prev st with Some c => is_word c | None => false end in
  let b := match ms_rest st with String c _ => is_word c | EmptyString => false end in
  xorb a b.

(** The iterations of [r*]: [mr] matches one [r]; a greedy star tries one
    more iteration before the continuation [k], a lazy one after it.  An
    iteration that consumes nothing ends the repetition; the fuel [n] bounds
    the number of consuming iterations. *)
Fixpoint star_loop (mr : mstate -> (mstate -> option mstate) -> option mstate)
  (g : bool) (k : mstate -> option mstate) (n : nat) (st0 : mstate) {struct n}
  : option mstate :=
  let more :=
    fun u : unit =>
      match n with
      | 0 => None
      | S n' => mr st0 (fun st' =>
                  if Nat.eqb (ms_pos st') (ms_pos st0) then None
                  else star_loop mr g k n' st')
      end in
  if g then
    match more tt with
    | Some x => Some x
    | None => k st0
    end
  else
    match k st0 with
    | Some x => Some x
    | None => more tt
    end.

(** [m r st k]: try to match [r] at [st], passing each way of matching, in
    the order Python's backtracking engine tries them, to the continuation
    [k]; the first success wins.  A repetition stops when an iteration
    consumes nothing; the fuel (length of the rest of the subject) bounds
    the number of consuming iterations. *)
Fixpoint m (r : re) (st : mstate) (k : mstate -> option mstate) {struct r}
  : option mstate :=
  match r with
  | Chr d =>
      match ms_rest st with
      | String c s => if chr_eq c d then k (step st c s) else None
      | EmptyString => None
      end
  | Cls p =>
      match ms_rest st with
      | String c s => if p c then k (step st c s) else None
      | EmptyString => None
      end
  | Any =>
      match ms_rest st with
      | String c s =>
          if dotall || negb (Ascii.eqb c "010"%char) then k (step st c s) else None
      | EmptyString => None
      end
  | Eps => k st
  | Seq r1 r2 => m r1 st (fun st' => m r2 st' k)
  | Alt r1 r2 =>
      match m r1 st k with
      | Some x => Some x
      | None => m r2 st k
      end
  | Star g r1 => star_loop (m r1) g k (String.length (ms_rest st)) st
  | Grp n r1 =>
      m r1 st (fun st' =>
        k (MS (ms_pos st') (ms_prev st') (ms_rest st')
              ((n, (ms_pos st, ms_pos st')) :: ms_caps st')))
  | Bound => if at_bound st then k st else None
  end.

(** A successful match attempt at one position: its end state. *)
Definition match_here (r : re) (pos : nat) (prev : option ascii) (s : string)
  : option mstate :=
  m r (MS pos prev s []) (fun st => Some st).

(** [re.search]: the leftmost position where [r] matches. *)
Fixpoint search_from (r : re) (pos : nat) (prev : option ascii) (s : string)
  {struct s} : option (nat * mstate) :=
  match match_here r pos prev s with
  | Some st => Some (pos, st)
  | None =>
      match s with
      | EmptyString => None
      | String c s' => search_from r (S pos) (Some c) s'
      end
  end.

(** The successive non-overlapping matches scanned by [re.findall] and
    [re.sub]: after a match, scanning resumes at its end (one character
    further for an empty match). *)
Fixpoint scan_from (fuel : nat) (r : re) (pos : nat) (prev : option ascii)
  (s : string) : list (nat * mstate) :=
  match fuel with
  | 0 => []
  | S f =>
      match search_from r pos prev s with
      | None => []
      | Some (p, st) =>
          (p, st) ::
          (if Nat.eqb (ms_pos st) p then
             match ms_rest st with
             | EmptyString => []
             | String c s' => scan_from f r (S (ms_pos st)) (Some c) s'
             end
           else scan_from f r (ms_pos st) (ms_prev st) (ms_rest st))
      end
  end.

Definition scan (r : re) (s : string) : list (nat * mstate) :=
  scan_from (S (String.length s)) r 0 None s.

End Matcher.

(** Text of group [n] of a match on subject [s] ([""] if unset, as in
    [findall]); group 0 is the whole match. *)
Definition group (s : string) (p : nat) (st : mstate) (n : nat) : string :=
  match n with
  | 0 => substring p (ms_pos st - p) s
  | _ =>
      match find (fun e => Nat.eqb (fst e) n) (ms_caps st) with
      | Some (_, (a, b)) => substring a (b - a) s
      | None => ""
      end
  end.

(** [re.search(r, s, flags) is not None] *)
Definition found (icase dotall : bool) (r : re) (s : string) : bool :=
  match search_from icase dotall r 0 None s with Some _ => true | None => false end.

(** [re.findall] for a pattern with one, two and three groups. *)
Definition findall1 (icase dotall : bool) (r : re) (s : string) : list string :=
  map (fun '(p, st) => group s p st 1) (scan icase dotall r s).

Definition findall2 (icase dotall : bool) (r : re) (s : string)
  : list (string * string) :=
  map (fun '(p, st) => (group s p st 1, group s p st 2)) (scan icase dotall r s).

Definition findall3 (icase dotall : bool) (r : re) (s : string)
  : list (string * string * string) :=
  map (fun '(p, st) => (group s p st 1, group s p st 2, group s p st 3))
      (scan icase dotall r s).

(** *** Replacement templates of [re.sub]

    A replacement string containing a backslash is compiled before any
    matching ([sre_parse.parse_template]); compilation errors are raised even
    when the pattern does not match.  [\g<name>] with a non-numeric name is
    an error here, since none of the modelled patterns has named groups. *)
Inductive tpiece : Type :=
| TLit (s : string)
| TGrp (n : nat).

(** [sre_parse.ESCAPES] as used in templates. *)
Definition escape_char (c : ascii) : option ascii :=
  if Ascii.eqb c "a"%char then Some (ascii_of_nat 7)
  else if Ascii.eqb c "b"%char then Some (ascii_of_nat 8)
  else if Ascii.eqb c "f"%char then Some (ascii_of_nat 12)
  else if Ascii.eqb c "n"%char then Some (ascii_of_nat 10)
  else if Ascii.eqb c "r"%char then Some (ascii_of_nat 13)
  else if Ascii.eqb c "t"%char then Some (ascii_of_nat 9)
  else if Ascii.eqb c "v"%char then Some (ascii_of_nat 11)
  else if Ascii.eqb c "\"%char then Some "\"%char
  else None.

(** [s.getuntil(">")]: the group name and what follows the [>]. *)
Fixpoint take_name (s : string) : option (string * string) :=
  match s with
  | EmptyString => None
  | String c s' =>
      if Ascii.eqb c ">"%char then Some ("", s')
      else match take_name s' with
           | Some (nm, r) => Some (String c nm, r)
           | None => None
           end
  end.

Definition chr (n : nat) : string := String (ascii_of_nat n) "".

Fixpoint parse_template (fuel ngroups : nat) (s : string)
  : result (list tpiece) :=
  match fuel with
  | 0 => Ok []
  | S f =>
      let addgroup (i : nat) (rest : string) :=
        if Nat.ltb ngroups i then Raise (ReError "invalid group reference")
        else let! ps := parse_template f ngroups rest in Ok (TGrp i :: ps) in
      let lit (t : string) (rest : string) :=
        let! ps := parse_template f ngroups rest in Ok (TLit t :: ps) in
      match s with
      | EmptyString => Ok []
      | String c s' =>
          if negb (Ascii.eqb c "\"%char) then lit (String c "") s'
          else
            match s' with
            | EmptyString => Raise (ReError "bad escape (end of pattern)")
            | String d s2 =>
                if Ascii.eqb d "g"%char then
                  match s2 with
                  | String lt s3 =>
                      if Ascii.eqb lt "<"%char then
                        match take_name s3 with
                        | None => Raise (ReError "missing >, unterminated name")
                        | Some (nm, s4) =>
                            if String.eqb nm "" then Raise (ReError "missing group name")
                            else if all_chars is_digit nm then addgroup (int_digits nm) s4
                            else Raise (IndexError "unknown group name")
                        end
                      else Raise (ReError "missing <")
                  | EmptyString => Raise (ReError "missing <")
                  end
                else if Ascii.eqb d "0"%char then
                  match s2 with
                  | String e s3 =>
                      if is_octal e then
                        match s3 with
                        | String g s4 =>
                            if is_octal g then
                              lit (chr (8 * digit_val e + digit_val g)) s4
                            else lit (chr (digit_val e)) s3
                        | EmptyString => lit (chr (digit_val e)) s3
                        end
                      else lit (chr 0) s2
                  | EmptyString => lit (chr 0) s2
                  end
                else if is_digit d then
                  match s2 with
                  | String e s3 =>
                      if is_digit e then
                        match s3 with
                        | String g s4 =>
                            if is_octal d && is_octal e && is_octal g then
                              let v := 64 * digit_val d + 8 * digit_val e + digit_val g in
                              if Nat.ltb 255 v then
                                Raise (ReError "octal escape value outside of range 0-0o377")
                              else lit (chr v) s4
                            else addgroup (10 * digit_val d + digit_val e) s3
                        | EmptyString => addgroup (10 * digit_val d + digit_val e) s3
                        end
                      else addgroup (digit_val d) s2
                  | EmptyString => addgroup (digit_val d) s2
                  end
                else
                  match escape_char d with
                  | Some e => lit (String e "") s2
                  | None =>
                      if is_letter d then Raise (ReError "bad escape")
                      else lit (String c (String d "")) s2
                  end
            end
      end
  end.

Definition compile_template (ngroups : nat) (repl : string) : result (list tpiece) :=
  parse_template (S (String.length repl)) ngroups repl.

Definition expand (s : string) (p : nat) (st : mstate) (ps : list tpiece) : string :=
  concat_str (map (fun t => match t with
                           | TLit l => l
                           | TGrp n => group s p st n
                           end) ps).

Fixpoint sub_build (s : string) (ps : list tpiece) (ms : list (nat * mstate))
  (last : nat) : string :=
  match ms with
  | [] => substring last (String.length s - last) s
  | (p, st) :: ms' =>
      substring last (p - last) s ++ expand s p st ps ++ sub_build s ps ms' (ms_pos st)
  end.

(** [re.sub(r, repl, s, flags)] (all occurrences). *)
Definition sub (icase dotall : bool) (r : re) (repl s : string) : result string :=
  let! ps := compile_template (groups r) repl in
  Ok (sub_build s ps (scan icase dotall r s) 0).

End Re.

(** ** Python values

    The values a binding or a row can hold: [None], bools, ints, strings,
    lists and dicts (rows of [frappe.db.sql(..., as_dict=True)] are dicts,
    with their keys in column order). *)
Inductive pyval : Type :=
| VNone
| VBool (b : bool)
| VInt (z : Z)
| VStr (s : string)
| VList (l : list pyval)
| VDict (d : list (string * pyval)).

Definition z_str (z : Z) : string :=
  if (z <? 0)%Z then "-" ++ dec (Z.to_nat (- z)) else dec (Z.to_nat z).

Definition hex_digit (n : nat) : ascii :=
  if Nat.ltb n 10 then ascii_of_nat (48 + n) else ascii_of_nat (87 + n).

(** [repr(s)] for a str: single quotes unless the text has a single and no
    double quote; backslash, the quote and control characters escaped. *)
Definition str_repr (s : string) : string :=
  let dq := ascii_of_nat 34 in
  let q := if contains "'" s && negb (contains (String dq "") s) then dq else "'"%char in
  let esc (c : ascii) : string :=
    let n := nat_of_ascii c in
    if Ascii.eqb c "\"%char then "\\"
    else if Ascii.eqb c q then String "\"%char (String q "")
    else if Nat.eqb n 9 then "\t"
    else if Nat.eqb n 10 then "\n"
    else if Nat.eqb n 13 then "\r"
    else if Nat.ltb n 32 || Nat.eqb n 127 then
      String "\"%char (String "x"%char (String (hex_digit (n / 16)) (String (hex_digit (n mod 16)) "")))
    else String c "" in
  let fix go (t : string) : string :=
    match t with
    | EmptyString => ""
    | String c t' => esc c ++ go t'
    end in
  String q (go s ++ String q "").

Fixpoint py_repr (v : pyval) : string :=
  match v with
  | VNone => "None"
  | VBool true => "True"
  | VBool false => "False"
  | VInt z => z_str z
  | VStr s => str_repr s
  | VList l => "[" ++ join ", " (map py_repr l) ++ "]"
  | VDict d => "{" ++ join ", " (map (fun kv => str_repr (fst kv) ++ ": " ++ py_repr (snd kv)) d) ++ "}"
  end.

(** [str(v)] *)
Definition py_str (v : pyval) : string :=
  match v with
  | VStr s => s
  | _ => py_repr v
  end.

(** [x in v] for a str [x]. *)
Definition py_in (x : string) (v : pyval) : result bool :=
  match v with
  | VDict d => Ok (existsb (fun kv => String.eqb (fst kv) x) d)
  | VStr s => Ok (contains x s)
  | VList l => Ok (existsb (fun y => match y with VStr s => String.eqb s x | _ => false end) l)
  | _ => Raise (TypeError "argument is not iterable")
  end.

(** [v[k]] for a str [k]. *)
Definition py_getitem (v : pyval) (k : string) : result pyval :=
  match v with
  | VDict d =>
      match find (fun kv => String.eqb (fst kv) k) d with
      | Some (_, x) => Ok x
      | None => Raise KeyError
      end
  | VStr _ | VList _ => Raise (TypeError "indices must be integers")
  | _ => Raise (TypeError "object is not subscriptable")
  end.

(** Truth value of a value ([if collection]). *)
Definition truthy (v : pyval) : bool :=
  match v with
  | VNone => false
  | VBool b => b
  | VInt z => negb (Z.eqb z 0)
  | VStr s => negb (String.eqb s "")
  | VList l => match l with [] => false | _ => true end
  | VDict d => match d with [] => false | _ => true end
  end.

(** A dict with str keys, in insertion order. *)
Definition dict := list (string * pyval).

Definition dict_get (d : dict) (k : string) : option pyval :=
  match find (fun kv => String.eqb (fst kv) k) d with
  | Some (_, v) => Some v
  | None => None
  end.

Definition exn_str (e : exn) : string :=
  match e with
  | ReError msg | TypeError msg | IndexError msg | External msg => msg
  | KeyError => "KeyError"
  end.

(** ** [sql_validator.py] *)

Module SQLValidator.
Import Re.

(** [FORBIDDEN_KEYWORDS], each with its source text (used in the message). *)
Definition forbidden_verbs : re :=
  seqs [Bound;
        Grp 1 (alts [lits "DELETE"; lits "DROP"; lits "TRUNCATE"; lits "ALTER";
                     lits "UPDATE"; lits "GRANT"; lits "REVOKE";
                     seqs [lits "CREATE"; plus ws; lits "DATABASE"];
                     seqs [lits "DROP"; plus ws; lits "DATABASE"]]);
        Bound].

Definition forbidden_procs : re :=
  seqs [Bound; Grp 1 (alts [lits "EXEC"; lits "EXECUTE"; lits "XP_"; lits "SP_"]); Bound].

Definition forbidden_comments : re :=
  Grp 1 (alts [lits "--"; lits "#"; lits "/*"]).

Definition FORBIDDEN_KEYWORDS : list (string * re) :=
  [("\b(DELETE|DROP|TRUNCATE|ALTER|UPDATE|GRANT|REVOKE|CREATE\s+DATABASE|DROP\s+DATABASE)\b",
    forbidden_verbs);
   ("\b(EXEC|EXECUTE|XP_|SP_)\b", forbidden_procs);
   ("(--|#|\/\*)", forbidden_comments)].

(** The keys of [ALLOWED_OPERATIONS]. *)
Definition ALLOWED_OPERATIONS : list string := ["SELECT"; "INSERT"; "SHOW"; "DESCRIBE"].

Definition ALLOWED_INSERT_DOCTYPES : list string :=
  ["Lead"; "Opportunity"; "Customer"; "Supplier"; "Item"; "Task"; "Event"; "Note"].

Definition forbidden_fields : list string :=
  ["docstatus"; "idx"; "lft"; "rgt"; "_user_tags"; "_liked_by"].

Definition member (x : string) (l : list string) : bool := existsb (String.eqb x) l.

(** [(is_valid, error_message)] *)
Definition verdict : Type := (bool * option string)%type.

(** The first pattern of [FORBIDDEN_KEYWORDS] found in the text
    ([re.search(pattern, query_upper, re.IGNORECASE)]). *)
Fixpoint first_forbidden (ps : list (string * re)) (qu : string) : option string :=
  match ps with
  | [] => None
  | (src, r) :: ps' => if found true false r qu then Some src else first_forbidden ps' qu
  end.

(** [_get_operation] *)
Definition get_operation (q : string) : string :=
  match py_split q with
  | [] => ""
  | w :: _ => w
  end.

(** [FROM\s+`?(\w+)`?] and [JOIN\s+`?(\w+)`?] *)
Definition table_after (kw : string) : re :=
  seqs [lits kw; plus ws; opt (Chr "`"); Grp 1 (plus word); opt (Chr "`")].

Fixpoint dedup (l : list string) : list string :=
  match l with
  | [] => []
  | x :: l' => if member x l' then dedup l' else x :: dedup l'
  end.

(** [_extract_tables]: the Python set of table names; its iteration order is
    unspecified, the model uses the order of last discovery. *)
Definition extract_tables (q : string) : list string :=
  dedup (findall1 true false (table_after "FROM") q ++ findall1 true false (table_after "JOIN") q).

(** [_table_to_doctype] *)
Definition table_to_doctype (t : string) : option string :=
  if startswith t "tab" then Some (sdrop 3 t) else None.

(** [INTO\s+`?tab(\w+)`?] *)
Definition insert_pattern : re :=
  seqs [lits "INTO"; plus ws; opt (Chr "`"); lits "tab"; Grp 1 (plus word); opt (Chr "`")].

(** [not doctype] for the optional [doctype] argument. *)
Definition no_doctype (d : option string) : bool :=
  match d with
  | None => true
  | Some s => String.eqb s ""
  end.

(** The target of an INSERT as [_validate_insert] determines it: the
    argument if truthy, else group 1 of the first match of
    [insert_pattern] (IGNORECASE), else the argument unchanged. *)
Definition insert_target (q : string) (doctype : option string) : option string :=
  if no_doctype doctype then
    match search_from true false insert_pattern 0 None q with
    | Some (p, st) => Some (group q p st 1)
    | None => doctype
    end
  else doctype.

Section Validator.

(** [frappe.has_permission(doctype, ptype)] for the session user; a frappe
    call, so it may raise. *)
Variable has_permission : string -> string -> result bool.

Fixpoint check_read (tables : list string) : result (option verdict) :=
  match tables with
  | [] => Ok None
  | t :: ts =>
      match table_to_doctype t with
      | Some dt =>
          if String.eqb dt "" then check_read ts
          else
            let! ok := has_permission dt "read" in
            if ok then check_read ts
            else Ok (Some (false, Some ("No read permission for " ++ dt)))
      | None => check_read ts
      end
  end.

(** [_validate_select] *)
Definition validate_select (q : string) (doctype : option string) : result verdict :=
  let! r := check_read (extract_tables q) in
  match r with
  | Some v => Ok v
  | None =>
      if contains "INTO OUTFILE" (py_upper q) then Ok (false, Some "File operations not allowed")
      else Ok (true, None)
  end.

(** [_validate_insert] *)
Definition validate_insert (q : string) (doctype : option string) : result verdict :=
  match insert_target q doctype with
  | None => Ok (false, Some "Cannot determine target doctype for INSERT")
  | Some dt =>
      if String.eqb dt "" then Ok (false, Some "Cannot determine target doctype for INSERT")
      else if negb (member dt ALLOWED_INSERT_DOCTYPES) then
        Ok (false, Some ("Creating " ++ dt ++ " records via AI is not allowed"))
      else
        let! ok := has_permission dt "create" in
        if negb ok then Ok (false, Some ("No create permission for " ++ dt))
        else
          let ql := py_lower q in
          match find (fun f => contains f ql) forbidden_fields with
          | Some f => Ok (false, Some ("Cannot set system field: " ++ f))
          | None => Ok (true, None)
          end
  end.

(** [SQLValidator.validate_query] *)
Definition validate_query (q : string) (doctype : option string) : result verdict :=
  if String.eqb q "" then Ok (false, Some "Empty query")
  else
    let qu := py_strip (py_upper q) in
    match first_forbidden FORBIDDEN_KEYWORDS qu with
    | Some src => Ok (false, Some ("Forbidden operation detected: " ++ src))
    | None =>
        let op := get_operation qu in
        if negb (member op ALLOWED_OPERATIONS) then
          Ok (false, Some ("Operation '" ++ op ++ "' is not allowed"))
        else if String.eqb op "SELECT" then validate_select q doctype
        else if String.eqb op "INSERT" then validate_insert q doctype
        else Ok (true, None)
    end.

(** [frappe.db.sql(query, as_dict=True)]: the rows, or an exception. *)
Variable db_sql : string -> result pyval.

(** The dict returned by [validate_and_execute_query]. *)
Inductive response : Type :=
| Failure (error : option string)      (* {"success": False, "error": ...} *)
| Success (data : pyval).              (* {"success": True, "data": ...} *)

(** [validate_and_execute_query]: validation runs before the [try]; the
    [except Exception] around [frappe.db.sql] turns its exception into a
    failure ([frappe.log_error] there only logs). *)
Definition validate_and_execute_query (q : string) (doctype : option string)
  : result response :=
  let! v := validate_query q doctype in
  let (is_valid, error) := v in
  if negb is_valid then Ok (Failure error)
  else
    match db_sql q with
    | Ok rows => Ok (Success rows)
    | Raise e => Ok (Failure (Some ("Query execution failed: " ++ exn_str e)))
    end.

End Validator.

(** [d[k] = v] on a dict: an existing key keeps its position. *)
Definition dict_set (d : dict) (k : string) (v : pyval) : dict :=
  if existsb (fun kv => String.eqb (fst kv) k) d
  then map (fun kv => if String.eqb (fst kv) k then (k, v) else kv) d
  else (d ++ [(k, v)])%list.

(** [{"doctype": doctype, **data}] *)
Definition build_doc (doctype : string) (data : dict) : dict :=
  fold_left (fun d kv => dict_set d (fst kv) (snd kv)) data [("doctype", VStr doctype)].

(** The dict returned by [create_safe_record]. *)
Inductive record_result : Type :=
| RecSuccess (name message : string)   (* {"success": True, "name": ..., "message": ...} *)
| RecFailure (error : string).         (* {"success": False, "error": ...} *)

Section Record.

Variable has_permission : string -> string -> result bool.

(** [frappe.get_doc(d)], [doc.validate()] and [doc.insert()] in turn: the
    name of the inserted document, or the exception one of them raised. *)
Variable insert_doc : dict -> result string.

(** [SQLValidator.create_safe_record]: its [try] covers the whole body, so
    every exception becomes [{"success": False, "error": str(e)}]. *)
Definition create_safe_record (doctype : string) (data : dict) : record_result :=
  if negb (member doctype ALLOWED_INSERT_DOCTYPES) then
    RecFailure ("Creating " ++ doctype ++ " records via AI is not allowed")
  else
    match has_permission doctype "create" with
    | Raise e => RecFailure (exn_str e)
    | Ok false => RecFailure ("No create permission for " ++ doctype)
    | Ok true =>
        match insert_doc (build_doc doctype data) with
        | Ok name => RecSuccess name (doctype ++ " " ++ name ++ " created successfully (draft)")
        | Raise e => RecFailure (exn_str e)
        end
    end.

End Record.

End SQLValidator.

(** Threading a text through the iterations of a [for] loop whose body
    may raise. *)
Fixpoint fold_res {A : Type} (f : string -> A -> result string) (l : list A) (s : string)
  : result string :=
  match l with
  | [] => Ok s
  | x :: l' => let! s' := f s x in fold_res f l' s'
  end.

(** The rows of a bound list, [query_results[key][index]]. *)
Definition nth_row (rows : list pyval) (i : nat) : pyval := nth i rows VNone.

(** ** [layers/template_renderer.py] *)

Module Renderer.
Import Re.

Definition open2 : re := Seq (Chr "{") (Chr "{").
Definition close2 : re := Seq (Chr "}") (Chr "}").

(** [\{\{\s*(\w+)\[(\d+)\]\.(\w+)\s*\}\}] *)
Definition array_pattern : re :=
  seqs [open2; Star true ws; Grp 1 (plus word); Chr "["; Grp 2 (plus digit); Chr "]";
        Chr "."; Grp 3 (plus word); Star true ws; close2].

(** [r'\{\{\s*' + key + r'\[' + str(index) + r'\]\.' + field + r'\s*\}\}'];
    [key] and [field] are [\w+] text, literal in a pattern. *)
Definition array_sub_pattern (key : string) (index : nat) (field : string) : re :=
  seqs [open2; Star true ws; lits key; Chr "["; lits (dec index); Chr "]"; Chr ".";
        lits field; Star true ws; close2].

(** [\{\{\s*([^{}]+)\s*\}\}] *)
Definition simple_pattern : re :=
  seqs [open2; Star true ws; Grp 1 (plus not_brace); Star true ws; close2].

(** [r'\{\{\s*' + re.escape(p) + r'\s*\}\}'] *)
Definition placeholder_pattern (p : string) : re :=
  seqs [open2; Star true ws; lits p; Star true ws; close2].

(** [\{%\s*for\s+(\w+)\s+in\s+(\w+)\s*%\}(.*?)\{%\s*endfor\s*%\}] *)
Definition loop_pattern : re :=
  seqs [Chr "{"; Chr "%"; Star true ws; lits "for"; plus ws; Grp 1 (plus word); plus ws;
        lits "in"; plus ws; Grp 2 (plus word); Star true ws; Chr "%"; Chr "}";
        Grp 3 (Star false Any);
        Chr "{"; Chr "%"; Star true ws; lits "endfor"; Star true ws; Chr "%"; Chr "}"].

(** [\{\{\s*([\w.]+)\s*\}\}] *)
Definition var_pattern : re :=
  seqs [open2; Star true ws; Grp 1 (plus word_or_dot); Star true ws; close2].

(** [full_pattern] of one loop: [var_name] and [collection_name] are [\w+]. *)
Definition full_pattern (v c : string) : re :=
  seqs [Chr "{"; Chr "%"; Star true ws; lits "for"; plus ws; lits v; plus ws;
        lits "in"; plus ws; lits c; Star true ws; Chr "%"; Chr "}";
        Star false Any;
        Chr "{"; Chr "%"; Star true ws; lits "endfor"; Star true ws; Chr "%"; Chr "}"].

Section Render.

Variable query_results : dict.

(** One iteration of the [array_matches] loop. *)
Definition array_step (res : string) (mt : string * string * string) : result string :=
  let '(key, index_s, field) := mt in
  let index := int_digits index_s in
  match dict_get query_results key with
  | Some (VList rows) =>
      if Nat.ltb index (length rows) then
        let! has := py_in field (nth_row rows index) in
        if has then
          let! v := py_getitem (nth_row rows index) field in
          sub false false (array_sub_pattern key index field) (py_str v) res
        else Ok res
      else Ok res
  | _ => Ok res
  end.

(** One iteration of the [simple_placeholders] loop. *)
Definition simple_step (res : string) (placeholder0 : string) : result string :=
  let placeholder := py_strip placeholder0 in
  match split_on "." placeholder with
  | [key] =>
      match dict_get query_results key with
      | Some v =>
          let value := match v with
                       | VList (r0 :: _) => py_str r0
                       | _ => py_str v
                       end in
          sub false false (placeholder_pattern placeholder) value res
      | None => Ok res
      end
  | [key; field] =>
      if contains "[" key then Ok res
      else
        match dict_get query_results key with
        | Some (VList (r0 :: _)) =>
            let! has := py_in field r0 in
            if has then
              let! v := py_getitem r0 field in
              sub false false (placeholder_pattern placeholder) (py_str v) res
            else Ok res
        | _ => Ok res
        end
  | _ => Ok res
  end.

(** The collection of a loop: exact key, else the first key (in insertion
    order) that contains or is contained in the name. *)
Definition resolve_collection (name : string) : option pyval :=
  match dict_get query_results name with
  | Some v => Some v
  | None =>
      match find (fun kv => contains name (fst kv) || contains (fst kv) name) query_results with
      | Some (_, v) => Some v
      | None => None
      end
  end.

(** One iteration of the [var_matches] loop for row [item] at position [i]. *)
Definition item_step (var_name : string) (i : nat) (item : pyval) (acc : string)
  (var_ref : string) : result string :=
  match split_on "." var_ref with
  | p0 :: p1 :: _ =>
      if String.eqb p0 var_name then
        let! has := py_in p1 item in
        if has then
          let! v := py_getitem item p1 in
          sub false false (placeholder_pattern var_ref) (py_str v) acc
        else Ok acc
      else if String.eqb p0 "loop" then
        if String.eqb p1 "index" then
          sub false false (placeholder_pattern var_ref)
              (String (ascii_of_nat 10) (dec (i + 1))) acc
        else Ok acc
      else Ok acc
  | _ => Ok acc
  end.

Definition render_item (var_name block : string) (i : nat) (item : pyval) : result string :=
  fold_res (item_step var_name i item) (findall1 false false var_pattern block) block.

Fixpoint render_items (var_name block : string) (i : nat) (items : list pyval)
  : result (list string) :=
  match items with
  | [] => Ok []
  | it :: its =>
      let! r := render_item var_name block i it in
      let! rs := render_items var_name block (S i) its in
      Ok (r :: rs)
  end.

(** One iteration of the [loop_blocks] loop. *)
Definition loop_step (res : string) (blk : string * string * string) : result string :=
  let '(var_name, collection_name, block_content) := blk in
  match resolve_collection collection_name with
  | Some (VList ((_ :: _) as items)) =>
      let! rendered := render_items var_name block_content 0 items in
      sub false true (full_pattern var_name collection_name) (concat_str rendered) res
  | _ => Ok res
  end.

Definition array_pass (t : string) : result string :=
  fold_res array_step (findall3 false false array_pattern t) t.

Definition simple_pass (t : string) : result string :=
  fold_res simple_step (findall1 false false simple_pattern t) t.

Definition loop_pass (t : string) : result string :=
  fold_res loop_step (findall3 false true loop_pattern t) t.

End Render.

(** [render_template(template, query_results)]; the closing
    [frappe.log_error] call only logs. *)
Definition render_template (template : string) (query_results : dict) : result string :=
  let! r1 := array_pass query_results template in
  let! r2 := simple_pass query_results r1 in
  loop_pass query_results r2.

End Renderer.

(** [s.replace(old, new)]: every non-overlapping occurrence, left to right. *)
Fixpoint interleave (nw s : string) : string :=
  match s with
  | EmptyString => nw
  | String c s' => nw ++ String c (interleave nw s')
  end.

Fixpoint replace_aux (fuel : nat) (old nw s : string) : string :=
  match fuel with
  | 0 => s
  | S f =>
      if String.prefix old s then nw ++ replace_aux f old nw (sdrop (String.length old) s)
      else match s with
           | EmptyString => EmptyString
           | String c s' => String c (replace_aux f old nw s')
           end
  end.

Definition py_replace (s old nw : string) : string :=
  if String.eqb old "" then interleave nw s
  else replace_aux (S (String.length s)) old nw s.

(** ** [controllers/chat.py], [render_template] *)

Module Chat.
Import Re.

(** [\{([^{}]+)\}] *)
Definition placeholder_pattern : re :=
  seqs [Chr "{"; Grp 1 (plus not_brace); Chr "}"].

(** [{%\s*for\s+(\w+)\s+in\s+(\w+)\s*%}(.*?){%\s*endfor\s*%}] *)
Definition loop_pattern : re := Renderer.loop_pattern.

(** [{{([\w.]+)}}] *)
Definition var_pattern : re :=
  seqs [Chr "{"; Chr "{"; Grp 1 (plus word_or_dot); Chr "}"; Chr "}"].

Definition braced (s : string) : string := "{" ++ s ++ "}".

Section Render.

Variable query_results : dict.

Definition simple_step (res : string) (placeholder : string) : result string :=
  match split_on "." placeholder with
  | [key] =>
      match dict_get query_results key with
      | Some (VList (r0 :: _)) => Ok (py_replace res (braced key) (py_str r0))
      | Some v => Ok (py_replace res (braced key) (py_str v))
      | None => Ok res
      end
  | [key; field] =>
      match dict_get query_results key with
      | Some (VList (r0 :: _)) =>
          let! has := py_in field r0 in
          if has then
            let! v := py_getitem r0 field in
            Ok (py_replace res (braced (key ++ "." ++ field)) (py_str v))
          else Ok res
      | _ => Ok res
      end
  | _ => Ok res
  end.

(** One iteration of the [var_matches] loop; [context["loop"]] is
    [{"index": i + 1}]. *)
Definition item_step (var_name : string) (i : nat) (item : pyval) (acc : string)
  (var_ref : string) : result string :=
  match split_on "." var_ref with
  | p0 :: p1 :: _ =>
      if String.eqb p0 var_name then
        let! has := py_in p1 item in
        if has then
          let! v := py_getitem item p1 in
          Ok (py_replace acc (braced (braced var_ref)) (py_str v))
        else Ok acc
      else if String.eqb p0 "loop" then
        if String.eqb p1 "index" then
          Ok (py_replace acc (braced (braced var_ref)) (dec (i + 1)))
        else Ok acc
      else Ok acc
  | _ => Ok acc
  end.

Definition render_item (var_name block : string) (i : nat) (item : pyval) : result string :=
  fold_res (item_step var_name i item) (findall1 false false var_pattern block) block.

Fixpoint render_items (var_name block : string) (i : nat) (items : list pyval)
  : result (list string) :=
  match items with
  | [] => Ok []
  | it :: its =>
      let! r := render_item var_name block i it in
      let! rs := render_items var_name block (S i) its in
      Ok (r :: rs)
  end.

(** [f"{{% for {var_name} in {collection_name} %}}{block_content}{{% endfor %}}"] *)
Definition loop_str (v c body : string) : string :=
  "{% for " ++ v ++ " in " ++ c ++ " %}" ++ body ++ "{% endfor %}".

Definition loop_step (res : string) (blk : string * string * string) : result string :=
  let '(var_name, collection_name, block_content) := blk in
  match dict_get query_results collection_name with
  | Some (VList items) =>
      let! rendered := render_items var_name block_content 0 items in
      Ok (py_replace res (loop_str var_name collection_name block_content) (concat_str rendered))
  | _ => Ok res
  end.

(** The placeholders are found in [template]; the substitutions apply to
    [result]. *)
Definition simple_pass (template : string) : result string :=
  fold_res simple_step (findall1 false false placeholder_pattern template) template.

Definition loop_pass (t : string) : result string :=
  fold_res loop_step (findall3 false true loop_pattern t) t.

End Render.

Definition render_template (template : string) (query_results : dict) : result string :=
  let! r := simple_pass query_results template in
  loop_pass query_results r.

End Chat.

(** ** A frappe collaborator *)


(** ** [AIProviderConfig] ([controllers/chat.py], and the same class in
    [controllers/layers/ai_provider.py]) *)

Module AIProviderConfig.

Record provider_defaults : Type := PD {
  default : string;
  models : list string
}.

(** The [defaults] table of [get_default_model] and [get_available_models]. *)
Definition openai_defaults : provider_defaults :=
  PD "gpt-3.5-turbo" ["gpt-4"; "gpt-3.5-turbo"; "gpt-4-turbo"].

Definition defaults : list (string * provider_defaults) :=
  [("OpenAI", openai_defaults);
   ("DeepSeek", PD "deepseek-chat" ["deepseek-chat"; "deepseek-reasoner"])].

(** [defaults.get(provider, defaults["OpenAI"])] *)
Definition provider_config (provider : string) : provider_defaults :=
  match find (fun kv => String.eqb (fst kv) provider) defaults with
  | Some (_, c) => c
  | None => openai_defaults
  end.

Definition get_default_model (provider : string) : string :=
  default (provider_config provider).

Definition get_available_models (provider : string) : list string :=
  models (provider_config provider).

Definition is_valid_model (provider model : string) : bool :=
  SQLValidator.member model (get_available_models provider).

(** Truth value of an optional str argument ([None] or a str). *)
Definition str_truthy (s : option string) : bool :=
  match s with
  | Some x => negb (String.eqb x "")
  | None => false
  end.

Definition validate_provider_config (provider : string) (api_key base_url : option string)
  : bool * option string :=
  if negb (str_truthy api_key) then (false, Some ("API key not configured for " ++ provider))
  else if String.eqb provider "DeepSeek" && negb (str_truthy base_url) then
    (false, Some "Base URL required for DeepSeek provider")
  else (true, None).

(** The model [process_message] uses: [settings.get("model") or
    default_model], replaced by the default when [is_valid_model] rejects
    it. *)
Definition chosen_model (provider : string) (setting_model : option string) : string :=
  let default_model := get_default_model provider in
  let model_name := if str_truthy setting_model then
                      match setting_model with Some x => x | None => default_model end
                    else default_model in
  if is_valid_model provider model_name then model_name else default_model.

End AIProviderConfig.

(** ** [get_cached_settings] ([controllers/chat.py])

    The module-level [settings_cache] and the clock [time.time()]; times
    are rationals (the rounding of float subtraction is not modelled). *)

Module SettingsCache.
Import QArith.

Section Cache.

(** The Chatbot Settings document. *)
Variable S : Type.

(** [frappe.get_doc("Chatbot Settings")] at a given time: the document as
    stored then, or an exception. *)
Variable fetch : Q -> result S.

Record cache : Type := Cache {
  last_updated : option Q;
  settings : option S
}.

Definition empty_cache : cache := Cache None None.

(** [get_cached_settings()] at time [current_time]: the value returned
    ([settings_cache["settings"]]) and the cache afterwards.  When
    [frappe.get_doc] raises, nothing has been assigned yet. *)
Definition get_cached_settings (current_time : Q) (c : cache) : result (option S * cache) :=
  let refresh := match last_updated c with
                 | None => true
                 | Some t => negb (Qle_bool (current_time - t) 300)
                 end in
  if refresh then
    let! s := fetch current_time in
    Ok (Some s, Cache (Some current_time) (Some s))
  else Ok (settings c, c).

End Cache.

Arguments get_cached_settings {S} fetch current_time c.
Arguments Cache {S} last_updated settings.

End SettingsCache.

(** ** The conversation memories ([get_or_create_memory] and
    [reset_conversation] in [controllers/chat.py]) *)

Module Memories.

Section Store.

(** A [ConversationTokenBufferMemory]. *)
Variable M : Type.

(** Building the memory of a conversation not in the store: the LLM object,
    and the last ten messages loaded from the database; a frappe call, so it
    may raise. *)
Variable create : string -> result M.

(** The module-level dict [conversation_memories]. *)
Definition store : Type := list (string * M).

Definition lookup (st : store) (cid : string) : option M :=
  match find (fun kv => String.eqb (fst kv) cid) st with
  | Some (_, m) => Some m
  | None => None
  end.

(** [conversation_memories[cid] = memory] for a new key. *)
Definition add (st : store) (cid : string) (mem : M) : store := (st ++ [(cid, mem)])%list.

(** [del conversation_memories[cid]] *)
Definition remove (st : store) (cid : string) : store :=
  filter (fun kv => negb (String.eqb (fst kv) cid)) st.

Definition get_or_create_memory (st : store) (cid : string) : result (M * store) :=
  match lookup st cid with
  | Some mem => Ok (mem, st)
  | None =>
      let! mem := create cid in
      Ok (mem, add st cid mem)
  end.

(** [reset_conversation]: the store afterwards (the returned dict is
    always the success message). *)
Definition reset_conversation (st : store) (cid : string) : store :=
  match lookup st cid with
  | Some _ => remove st cid
  | None => st
  end.

End Store.

Arguments lookup {M} st cid.
Arguments remove {M} st cid.
Arguments get_or_create_memory {M} create st cid.
Arguments reset_conversation {M} st cid.

End Memories.

(** ** [SmartRAGRetriever._lightweight_search] ([controllers/chat.py]) *)

Module Lightweight.

(** A LangChain [Document]. *)
Record document : Type := Doc {
  page_content : string;
  metadata : dict
}.

(** The dict appended to [scored_docs]. *)
Record scored : Type := Scored {
  content : string;
  s_metadata : dict;
  source : pyval;
  score : nat
}.

(** [s.count(w)] for a non-empty [w]: non-overlapping occurrences, left to
    right. *)
Fixpoint count_aux (fuel : nat) (w s : string) : nat :=
  match fuel with
  | 0 => 0
  | S f =>
      if String.prefix w s then S (count_aux f w (sdrop (String.length w) s))
      else match s with
           | EmptyString => 0
           | String _ s' => count_aux f w s'
           end
  end.

Definition py_count (s w : string) : nat :=
  if String.eqb w "" then S (String.length s)
  else count_aux (S (String.length s)) w s.

(** The [score] of a document: the occurrences of the query words longer
    than two characters. *)
Definition doc_score (query_words : list string) (content_lower : string) : nat :=
  fold_left (fun acc w => if Nat.ltb 2 (String.length w) then acc + py_count content_lower w else acc)
            query_words 0.

(** [doc.metadata.get("source", "Unknown")] *)
Definition meta_source (md : dict) : pyval :=
  match dict_get md "source" with
  | Some v => v
  | None => VStr "Unknown"
  end.

Definition score_docs (query_words : list string) (docs : list document) : list scored :=
  fold_right (fun d acc =>
    let sc := doc_score query_words (py_lower (page_content d)) in
    if Nat.ltb 0 sc then Scored (page_content d) (metadata d) (meta_source (metadata d)) sc :: acc
    else acc) [] docs.

(** [scored_docs.sort(key=lambda x: x["score"], reverse=True)]: a stable
    sort, so documents of equal score keep their order. *)
Fixpoint insert_desc (x : scored) (l : list scored) : list scored :=
  match l with
  | [] => [x]
  | y :: l' => if Nat.ltb (score y) (score x) then x :: y :: l' else y :: insert_desc x l'
  end.

Definition sort_desc (l : list scored) : list scored :=
  fold_left (fun acc x => insert_desc x acc) l [].

(** [_lightweight_search(query, top_k)]; [load] is
    [self._load_lightweight_knowledge_base()], and an exception of it is
    caught ([return []]). *)
Definition lightweight_search (load : result (list document)) (query : string) (top_k : nat)
  : list scored :=
  match load with
  | Raise _ => []
  | Ok documents =>
      firstn top_k (sort_desc (score_docs (py_split (py_lower query)) documents))
  end.

End Lightweight.

(** ** Notions used by the proofs *)

Module Notions.
Import Re.

(** [a] is a suffix of [b]: what is left of a subject after a match. *)
Definition is_suffix (a b : string) : Prop := exists p, b = p ++ a.

(** Patterns that cannot match without consuming the character [c]. *)
Fixpoint needs (c : ascii) (r : re) : bool :=
  match r with
  | Chr d => Ascii.eqb d c
  | Seq r1 r2 => needs c r1 || needs c r2
  | Alt r1 r2 => needs c r1 && needs c r2
  | Grp _ r1 => needs c r1
  | _ => false
  end.

(** [c not in s] *)
Definition lacks (c : ascii) (s : string) : bool := all_chars (fun x => negb (Ascii.eqb x c)) s.

(** The previous character after consuming [w]. *)
Fixpoint lastc (p : option ascii) (w : string) : option ascii :=
  match w with
  | EmptyString => p
  | String c w' => lastc (Some c) w'
  end.

(** The text does not start with a character of the class [p]. *)
Definition head_not (p : ascii -> bool) (s : string) : Prop :=
  match s with
  | String c _ => p c = false
  | EmptyString => True
  end.

(** The characters of [[\w.]]: those of a key, a field and a dotted name. *)
Definition is_name (c : ascii) : bool := is_word c || Ascii.eqb c ".".

(** A replacement string without a backslash is literal text. *)
Definition no_bs (c : ascii) : bool := negb (Ascii.eqb c "\").

(** The compiled form of such a replacement string. *)
Fixpoint lit_pieces (s : string) : list tpiece :=
  match s with
  | EmptyString => []
  | String c s' => TLit (String c "") :: lit_pieces s'
  end.


Definition nl : ascii := ascii_of_nat 10.

(** A loop over [xs] whose body is the 1-based row position. *)
Definition index_template : string := "{% for r in xs %}{{loop.index}}{% endfor %}".



(** [validate_query] accepted the statement: it returned [(True, _)]. *)
Definition accepted (r : result SQLValidator.verdict) : bool :=
  match r with
  | Ok (true, _) => true
  | _ => false
  end.

(** One step of [{"doctype": doctype, **data}]: setting one key of [data]. *)
Definition doc_step (d : dict) (kv : string * pyval) : dict :=
  SQLValidator.dict_set d (fst kv) (snd kv).

Definition is_dict (v : pyval) : bool :=
  match v with VDict _ => true | _ => false end.

(** Bindings as [process_message] builds them: each key bound to the rows
    of [frappe.db.sql(sql, as_dict=1)], a list of dicts. *)
Definition rows_ok (qr : dict) : bool :=
  forallb (fun kv => match snd kv with VList rows => forallb is_dict rows | _ => false end) qr.

(** A row whose [str()] and whose field values' [str()] contain no
    backslash. *)
Definition row_clean (r : pyval) : bool :=
  match r with
  | VDict fs => all_chars no_bs (py_str r) && forallb (fun kv => all_chars no_bs (py_str (snd kv))) fs
  | _ => false
  end.

(** Bindings of dict rows none of whose substituted texts has a backslash. *)
Definition clean_results (qr : dict) : bool :=
  forallb (fun kv => match snd kv with VList rows => forallb row_clean rows | _ => false end) qr.

(** The order of the sorted results: [a] scores at least as much as [b]. *)
Definition score_ge (a b : Lightweight.scored) : Prop :=
  Lightweight.score b <= Lightweight.score a.

End Notions.

(** * Proofs *)

Module SQLValidatorFacts.
Import Re SQLValidator.

Lemma check_read_no_tab (hp : string -> string -> result bool) (ts : list string) :
  (forall t, In t ts -> startswith t "tab" = false) ->
  check_read hp ts = Ok None.
Proof.
  induction ts as [|t ts IH]; intros Hall; simpl; [reflexivity|].
  unfold table_to_doctype. rewrite (Hall t (or_introl eq_refl)).
  apply IH. intros t' Ht'. apply Hall. right. exact Ht'.
Qed.

Lemma check_read_total (hp : string -> string -> result bool) (ts : list string) :
  (forall dt ptype, exists b, hp dt ptype = Ok b) ->
  exists r, check_read hp ts = Ok r.
Proof.
  intros Hhp. induction ts as [|t ts IH]; simpl; [eauto|].
  destruct (table_to_doctype t) as [dt|]; [|exact IH].
  destruct (String.eqb dt ""); [exact IH|].
  destruct (Hhp dt "read") as [b Hb]. rewrite Hb. simpl.
  destruct b; [exact IH | eauto].
Qed.

Lemma validate_query_total (hp : string -> string -> result bool) q d :
  (forall dt ptype, exists b, hp dt ptype = Ok b) ->
  exists v, validate_query hp q d = Ok v.
Proof.
  intros Hhp. unfold validate_query.
  destruct (String.eqb q ""); [eauto|]. cbv zeta.
  destruct (first_forbidden FORBIDDEN_KEYWORDS (py_strip (py_upper q))); [eauto|].
  destruct (negb (member (get_operation (py_strip (py_upper q))) ALLOWED_OPERATIONS)); [eauto|].
  destruct (String.eqb (get_operation (py_strip (py_upper q))) "SELECT").
  - unfold validate_select.
    destruct (check_read_total hp (extract_tables q) Hhp) as [r Hr]. rewrite Hr. simpl.
    destruct r; [eauto|]. destruct (contains "INTO OUTFILE" (py_upper q)); eauto.
  - destruct (String.eqb (get_operation (py_strip (py_upper q))) "INSERT"); [|eauto].
    unfold validate_insert.
    destruct (insert_target q d) as [dt|]; [|eauto].
    destruct (String.eqb dt ""); [eauto|].
    destruct (negb (member dt ALLOWED_INSERT_DOCTYPES)); [eauto|].
    destruct (Hhp dt "create") as [b Hb]. rewrite Hb. cbn [bind].
    destruct (negb b); [eauto|].
    cbv zeta. destruct (find (fun f => contains f (py_lower q)) forbidden_fields); eauto.
Qed.

End SQLValidatorFacts.

(** ** Facts about the matcher *)

Module ReFacts.
Import Re Notions.

Lemma suffix_refl s : is_suffix s s.
Proof. exists "". reflexivity. Qed.

Lemma suffix_cons c s : is_suffix s (String c s).
Proof. exists (String c ""). reflexivity. Qed.

Lemma suffix_trans a b c : is_suffix a b -> is_suffix b c -> is_suffix a c.
Proof.
  intros [p Hp] [q Hq]. exists (q ++ p). subst.
  induction q as [|x q IH]; simpl; [reflexivity|]. rewrite IH. reflexivity.
Qed.

Lemma suffix_cons_inv s' c s : is_suffix s' (String c s) -> s' = String c s \/ is_suffix s' s.
Proof.
  intros [[|x p] Hp]; simpl in Hp; [left; congruence|].
  right. exists p. congruence.
Qed.

Lemma suffix_empty s : is_suffix s "" -> s = "".
Proof. intros [[|x p] Hp]; simpl in Hp; congruence. Qed.


Section NoMatch.
Variables icase dotall : bool.

(** A match only hands the continuation states whose rest is a suffix of
    the rest it started from. *)
Lemma m_none_suffix (r : re) :
  forall st k,
    (forall st', is_suffix (ms_rest st') (ms_rest st) -> k st' = None) ->
    m icase dotall r st k = None.
Proof.
  induction r as [d|p| | |r1 IH1 r2 IH2|r1 IH1 r2 IH2|g r1 IH|n r1 IH|];
    intros st k Hk; simpl.
  - destruct (ms_rest st) eqn:E; [reflexivity|].
    destruct (chr_eq icase a d); [|reflexivity].
    apply Hk. rewrite ?E. apply suffix_cons.
  - destruct (ms_rest st) eqn:E; [reflexivity|].
    destruct (p a); [|reflexivity].
    apply Hk. rewrite ?E. apply suffix_cons.
  - destruct (ms_rest st) eqn:E; [reflexivity|].
    destruct (dotall || negb (Ascii.eqb a "010"%char)); [|reflexivity].
    apply Hk. rewrite ?E. apply suffix_cons.
  - apply Hk, suffix_refl.
  - apply IH1. intros st' H'. apply IH2. intros st'' H''.
    apply Hk. eapply suffix_trans; eauto.
  - rewrite (IH1 st k Hk). apply (IH2 st k Hk).
  - assert (Hl : forall n st0, is_suffix (ms_rest st0) (ms_rest st) ->
                 star_loop (m icase dotall r1) g k n st0 = None).
    { induction n as [|n IHn]; intros st0 H0; simpl.
      - rewrite (Hk st0 H0). destruct g; reflexivity.
      - assert (Hmore : m icase dotall r1 st0 (fun st' =>
                  if Nat.eqb (ms_pos st') (ms_pos st0) then None
                  else star_loop (m icase dotall r1) g k n st') = None).
        { apply IH. intros st' H'. destruct (Nat.eqb _ _); [reflexivity|].
          apply IHn. eapply suffix_trans; eauto. }
        rewrite Hmore. rewrite (Hk st0 H0). destruct g; reflexivity. }
    apply Hl, suffix_refl.
  - apply IH. intros st' H'. apply Hk. exact H'.
  - destruct (at_bound st); [apply Hk, suffix_refl | reflexivity].
Qed.

Lemma search_from_none (r : re) :
  forall s pos prev,
    (forall s' pos' prev', is_suffix s' s -> match_here icase dotall r pos' prev' s' = None) ->
    search_from icase dotall r pos prev s = None.
Proof.
  induction s as [|c s IH]; intros pos prev H; simpl.
  - rewrite (H "" pos prev (suffix_refl _)). reflexivity.
  - rewrite (H (String c s) pos prev (suffix_refl _)).
    apply IH. intros s' pos' prev' Hs. apply H.
    eapply suffix_trans; [exact Hs | apply suffix_cons].
Qed.

Lemma scan_nil (r : re) s :
  search_from icase dotall r 0 None s = None -> scan icase dotall r s = [].
Proof. intros H. unfold scan. simpl. rewrite H. reflexivity. Qed.

(** A pattern that starts with the literal [c] does not match where the
    text does not start with [c]. *)
Lemma match_here_head (c : ascii) (r : re) pos prev s :
  (forall d s', s = String d s' -> chr_eq icase d c = false) ->
  match_here icase dotall (Seq (Chr c) r) pos prev s = None.
Proof.
  intros H. unfold match_here. simpl.
  destruct s as [|d s']; [reflexivity|]. rewrite (H d s' eq_refl). reflexivity.
Qed.

End NoMatch.

Lemma all_chars_suffix (P : ascii -> bool) s s' d s'' :
  all_chars P s = true -> is_suffix s' s -> s' = String d s'' -> P d = true.
Proof.
  revert s'. induction s as [|c s IH]; intros s' Hs Hsuf Heq.
  - apply suffix_empty in Hsuf. congruence.
  - simpl in Hs. apply andb_prop in Hs as [Hc Hs].
    destruct (suffix_cons_inv _ _ _ Hsuf) as [E|E].
    + rewrite E in Heq. inversion Heq; subst. exact Hc.
    + eapply IH; eauto.
Qed.



Lemma lacks_suffix c s s' : lacks c s = true -> is_suffix s' s -> lacks c s' = true.
Proof.
  intros H [p ->]. unfold lacks in *. induction p as [|x p IH]; simpl in *; [exact H|].
  apply andb_prop in H as [_ H]. exact (IH H).
Qed.

Lemma needs_none (c : ascii) d (r : re) :
  forall st k, needs c r = true -> lacks c (ms_rest st) = true -> m false d r st k = None.
Proof.
  induction r as [e|p| | |r1 IH1 r2 IH2|r1 IH1 r2 IH2|g r1 IH|n r1 IH|];
    intros st k Hn Hl; simpl in Hn; try discriminate.
  - apply Ascii.eqb_eq in Hn. subst e. simpl.
    destruct (ms_rest st) as [|x s] eqn:E; [reflexivity|].
    simpl in Hl. apply andb_prop in Hl as [Hx _].
    unfold chr_eq. destruct (Ascii.eqb x c); [discriminate|reflexivity].
  - simpl. apply orb_prop in Hn as [Hn|Hn].
    + apply IH1; assumption.
    + apply m_none_suffix. intros st' Hs. apply IH2; [exact Hn|].
      eapply lacks_suffix; eauto.
  - simpl. apply andb_prop in Hn as [H1 H2].
    rewrite (IH1 st k H1 Hl). apply IH2; assumption.
  - simpl. apply IH; assumption.
Qed.

Lemma search_needs_none c d r s pos prev :
  needs c r = true -> lacks c s = true -> search_from false d r pos prev s = None.
Proof.
  intros Hn Hl. apply search_from_none. intros s' pos' prev' Hs.
  unfold match_here. apply (needs_none c); [exact Hn|]. simpl.
  eapply lacks_suffix; eauto.
Qed.

Lemma scan_needs_nil c d r s : needs c r = true -> lacks c s = true -> scan false d r s = [].
Proof. intros Hn Hl. apply scan_nil. eapply search_needs_none; eauto. Qed.


Lemma m_lits d (w : string) :
  forall st k rest, ms_rest st = w ++ rest ->
  m false d (lits w) st k = k (MS (ms_pos st + String.length w) (lastc (ms_prev st) w) rest (ms_caps st)).
Proof.
  induction w as [|c w IH]; intros st k rest E; simpl.
  - destruct st as [pos prev rst caps]; simpl in *. subst rst. rewrite Nat.add_0_r. reflexivity.
  - rewrite E. simpl. unfold chr_eq. rewrite Ascii.eqb_refl.
    rewrite (IH (step st c (w ++ rest)) k rest eq_refl). simpl.
    rewrite Nat.add_succ_r. reflexivity.
Qed.


Lemma star_loop_S_greedy mr k n st :
  star_loop mr true k (S n) st =
  match mr st (fun st' => if Nat.eqb (ms_pos st') (ms_pos st) then None
                          else star_loop mr true k n st') with
  | Some x => Some x
  | None => k st
  end.
Proof. reflexivity. Qed.

Lemma m_cls_hit icase d p st k c s :
  ms_rest st = String c s -> p c = true -> m icase d (Cls p) st k = k (step st c s).
Proof. intros E H. simpl. rewrite E, H. reflexivity. Qed.

Lemma m_cls_miss icase d p st k :
  head_not p (ms_rest st) -> m icase d (Cls p) st k = None.
Proof. intros H. simpl. destruct (ms_rest st) as [|c s]; [reflexivity|]. simpl in H. rewrite H. reflexivity. Qed.

Lemma star_cls d (p : ascii -> bool) (w : string) :
  forall st n k rest x,
    ms_rest st = w ++ rest -> all_chars p w = true -> head_not p rest ->
    String.length w <= n ->
    k (MS (ms_pos st + String.length w) (lastc (ms_prev st) w) rest (ms_caps st)) = Some x ->
    star_loop (m false d (Cls p)) true k n st = Some x.
Proof.
  induction w as [|c w IH]; intros st n k rest x E Hw Hh Hn Hk.
  - assert (Est : st = MS (ms_pos st + 0) (lastc (ms_prev st) "") rest (ms_caps st)).
    { destruct st; simpl in *. subst. rewrite Nat.add_0_r. reflexivity. }
    destruct n as [|n]; [simpl; rewrite Est; exact Hk|].
    rewrite star_loop_S_greedy. rewrite m_cls_miss by (rewrite E; exact Hh).
    rewrite Est. exact Hk.
  - simpl in Hw. apply andb_prop in Hw as [Hc Hw]. simpl in Hn.
    destruct n as [|n]; [lia|]. rewrite star_loop_S_greedy.
    rewrite (m_cls_hit false d p st _ c (w ++ rest) E Hc).
    assert (Hne : Nat.eqb (ms_pos (step st c (w ++ rest))) (ms_pos st) = false)
      by (apply Nat.eqb_neq; simpl; lia).
    rewrite Hne.
    rewrite (IH (step st c (w ++ rest)) n k rest x eq_refl Hw Hh ltac:(lia)); [reflexivity|].
    rewrite <- Hk. f_equal. simpl. f_equal. lia.
Qed.

Lemma m_star_cls d p w st k rest x :
  ms_rest st = w ++ rest -> all_chars p w = true -> head_not p rest ->
  k (MS (ms_pos st + String.length w) (lastc (ms_prev st) w) rest (ms_caps st)) = Some x ->
  m false d (Star true (Cls p)) st k = Some x.
Proof.
  intros E Hw Hh Hk.
  change (m false d (Star true (Cls p)) st k)
    with (star_loop (m false d (Cls p)) true k (String.length (ms_rest st)) st).
  apply (star_cls d p w st _ k rest x E Hw Hh); [|exact Hk].
  rewrite E. clear. induction w; simpl; lia.
Qed.

(** Running a match step by step. *)
Lemma go_seq i d r1 r2 st k x :
  m i d r1 st (fun s => m i d r2 s k) = x -> m i d (Seq r1 r2) st k = x.
Proof. auto. Qed.

Lemma go_chr d c st s k x :
  ms_rest st = String c s -> k (step st c s) = x -> m false d (Chr c) st k = x.
Proof. intros E H. simpl. rewrite E. unfold chr_eq. rewrite Ascii.eqb_refl. exact H. Qed.



Lemma go_star_zero d p st k x :
  head_not p (ms_rest st) -> k st = Some x -> m false d (Star true (Cls p)) st k = Some x.
Proof.
  intros Hh Hk. eapply (m_star_cls d p "" st k (ms_rest st)); [reflexivity|reflexivity|exact Hh|].
  destruct st; simpl. rewrite Nat.add_0_r. exact Hk.
Qed.





Lemma all_chars_app P a b : all_chars P (a ++ b) = all_chars P a && all_chars P b.
Proof. induction a as [|c a IH]; simpl; [reflexivity|]. rewrite IH. apply andb_assoc. Qed.


Lemma name_not_space c : is_name c = true -> is_space c = false.
Proof.
  intros H. destruct (is_space c) eqn:E; [|reflexivity].
  exfalso. revert H E. destruct c as [[] [] [] [] [] [] [] []]; vm_compute; congruence.
Qed.



Lemma go_lits d w st k rest x :
  ms_rest st = w ++ rest ->
  k (MS (ms_pos st + String.length w) (lastc (ms_prev st) w) rest (ms_caps st)) = x ->
  m false d (lits w) st k = x.
Proof. intros E H. rewrite (m_lits d w st k rest E). exact H. Qed.

Lemma scan_single d r c s p0 st :
  search_from false d r 0 None s = Some (p0, st) -> Nat.eqb (ms_pos st) p0 = false ->
  needs c r = true -> lacks c (ms_rest st) = true -> scan false d r s = [(p0, st)].
Proof.
  intros Hs Hp Hn Hl. unfold scan. cbn [scan_from]. rewrite Hs, Hp.
  destruct (String.length s) as [|f]; [reflexivity|]. cbn [scan_from].
  rewrite (search_needs_none c d r _ _ _ Hn Hl). reflexivity.
Qed.


Lemma substring_zero n s : substring n 0 s = "".
Proof. revert n. induction s as [|c s IH]; intros [|n]; simpl; auto. Qed.

Lemma substring_all s : substring 0 (String.length s) s = s.
Proof. induction s as [|c s IH]; simpl; [reflexivity|]. rewrite IH. reflexivity. Qed.


Lemma search_hit i d r pos prev s st :
  match_here i d r pos prev s = Some st -> search_from i d r pos prev s = Some (pos, st).
Proof. intros H. destruct s; unfold search_from; rewrite H; reflexivity. Qed.


Section Name.
Variable p : string.
Hypothesis Hne : p <> "".
Hypothesis Hp : all_chars is_name p = true.

Lemma name_head : exists c0 p', p = String c0 p' /\ is_name c0 = true /\ all_chars is_name p' = true.
Proof.
  destruct p as [|c0 p']; [congruence|]. simpl in Hp. apply andb_prop in Hp as [H1 H2].
  exists c0, p'. auto.
Qed.


(** [r'\{\{\s*' + re.escape(p) + r'\s*\}\}'] on [{{p}}]. *)
Lemma scan_placeholder_pattern :
  scan false false (Renderer.placeholder_pattern p) ("{{" ++ p ++ "}}")
  = [(0, MS (String.length p + 4) (Some "}"%char) "" [])].
Proof.
  destruct name_head as (c0 & p' & -> & H0 & Hp').
  apply (scan_single false _ "{"); [|apply Nat.eqb_neq; simpl; lia|reflexivity|reflexivity].
  apply search_hit. unfold match_here.
  unfold Renderer.placeholder_pattern, Renderer.open2, Renderer.close2, ws. cbn [seqs].
  apply go_seq, go_seq. eapply go_chr; [reflexivity|]. eapply go_chr; [reflexivity|].
  apply go_seq. apply go_star_zero; [apply name_not_space; exact H0|].
  apply go_seq. eapply (go_lits _ (String c0 p') _ _ "}}"); [reflexivity|].
  apply go_seq. apply go_star_zero; [reflexivity|].
  apply go_seq. eapply go_chr; [reflexivity|]. eapply go_chr; [reflexivity|].
  unfold step; cbn; repeat f_equal; lia.
Qed.




End Name.



Lemma parse_template_lit n s :
  forall fuel, String.length s < fuel -> all_chars no_bs s = true ->
  parse_template fuel n s = Ok (lit_pieces s).
Proof.
  induction s as [|c s IH]; intros [|f] Hl Hs; simpl in Hl; try lia.
  - reflexivity.
  - simpl in Hs. apply andb_prop in Hs as [Hc Hs]. unfold no_bs in Hc.
    cbn [parse_template]. rewrite Hc. rewrite (IH f ltac:(lia) Hs). reflexivity.
Qed.

Lemma expand_lit s0 p0 st r : expand s0 p0 st (lit_pieces r) = r.
Proof.
  unfold expand. induction r as [|c r IH]; [reflexivity|]. simpl. rewrite IH. reflexivity.
Qed.

Lemma sub_lit i d r repl s :
  all_chars no_bs repl = true ->
  sub i d r repl s = Ok (sub_build s (lit_pieces repl) (scan i d r s) 0).
Proof.
  intros H. unfold sub, compile_template.
  rewrite (parse_template_lit _ repl (S (String.length repl)) ltac:(lia) H). reflexivity.
Qed.

Lemma sub_build_none s ps : sub_build s ps [] 0 = s.
Proof. simpl. rewrite Nat.sub_0_r. apply substring_all. Qed.

Lemma append_empty_r s : s ++ "" = s.
Proof. induction s as [|c s IH]; simpl; [reflexivity|]. rewrite IH. reflexivity. Qed.

Lemma sub_build_whole s ps st :
  ms_pos st = String.length s -> sub_build s ps [(0, st)] 0 = expand s 0 st ps.
Proof.
  intros H. simpl. rewrite H, Nat.sub_diag, !substring_zero. simpl.
  apply append_empty_r.
Qed.

(** [str.replace] *)
Lemma prefix_app a b : String.prefix a (a ++ b) = true.
Proof.
  induction a as [|c a IH]; simpl; [destruct b; reflexivity|].
  destruct (ascii_dec c c); [exact IH|congruence].
Qed.

Lemma sdrop_app a b : sdrop (String.length a) (a ++ b) = b.
Proof. induction a as [|c a IH]; simpl; [destruct b; reflexivity|exact IH]. Qed.

Lemma replace_aux_hit f old nw s :
  String.prefix old s = true ->
  replace_aux (S f) old nw s = nw ++ replace_aux f old nw (sdrop (String.length old) s).
Proof. intros H. cbn [replace_aux]. rewrite H. reflexivity. Qed.


Lemma replace_aux_empty f old nw : old <> "" -> replace_aux f old nw "" = "".
Proof. intros H. destruct f, old; simpl; congruence. Qed.

Lemma py_replace_self s nw : s <> "" -> py_replace s s nw = nw.
Proof.
  intros H. unfold py_replace. destruct (String.eqb_spec s ""); [congruence|].
  rewrite replace_aux_hit.
  - pose proof (sdrop_app s "") as E. rewrite append_empty_r in E. rewrite E.
    rewrite replace_aux_empty by exact H. apply append_empty_r.
  - pose proof (prefix_app s "") as E. rewrite append_empty_r in E. exact E.
Qed.









Lemma length_app_s a b : String.length (a ++ b) = String.length a + String.length b.
Proof. induction a as [|c a IH]; simpl; [reflexivity|]. rewrite IH. reflexivity. Qed.



Lemma sub_placeholder p v :
  p <> "" -> all_chars is_name p = true -> all_chars no_bs v = true ->
  sub false false (Renderer.placeholder_pattern p) v ("{{" ++ p ++ "}}") = Ok v.
Proof.
  intros Hne Hp Hv. rewrite (sub_lit _ _ _ _ _ Hv), (scan_placeholder_pattern p Hne Hp).
  rewrite sub_build_whole, expand_lit; [reflexivity|].
  simpl. rewrite length_app_s. simpl. lia.
Qed.













End ReFacts.

Module Guard.
Import Re SQLValidator SQLValidatorFacts Notions.

(** Claim C1 (the identifier-prefix part fails): the denylist pattern
    [\b(EXEC|EXECUTE|XP_|SP_)\b] ends with [\b], which after [XP_] holds
    only when no word character follows, so an identifier such as
    [XP_CMDSHELL] is not denylisted: [validate_query] accepts
    ["SELECT XP_CMDSHELL FROM DUAL"], whatever the permission oracle and the
    [doctype] argument (the table [DUAL] has no [tab] prefix). *)
Theorem C1_xp_prefixed_identifier_accepted :
  forall (has_permission : string -> string -> result bool) (doctype : option string),
    validate_query has_permission "SELECT XP_CMDSHELL FROM DUAL" doctype = Ok (true, None).
Proof. intros. vm_compute. reflexivity. Qed.

(** The keyword part of C1 on the spec's example: the statement with a
    [DROP] after a [SELECT] is rejected by the denylist. *)
Lemma denylist_rejects_select_then_drop :
  forall (has_permission : string -> string -> result bool) (doctype : option string),
    exists msg, validate_query has_permission
      "SELECT * FROM tabCustomer; DROP TABLE tabCustomer;" doctype = Ok (false, msg).
Proof. intros. eexists. vm_compute. reflexivity. Qed.




(** Claim C3: an INSERT (first word of the upper-cased, stripped text) whose
    target (the [doctype] argument if given, else the entity parsed from
    [INTO tab<Entity>]) is missing or outside [ALLOWED_INSERT_DOCTYPES] is
    rejected, whatever the permission oracle answers (even a blanket create
    permission). *)
Theorem C3_insert_outside_allow_list_rejected :
  forall (has_permission : string -> string -> result bool) (q : string)
         (doctype : option string),
    get_operation (py_strip (py_upper q)) = "INSERT" ->
    (forall dt, insert_target q doctype = Some dt ->
                member dt ALLOWED_INSERT_DOCTYPES = false) ->
    exists msg, validate_query has_permission q doctype = Ok (false, msg).
Proof.
  intros hp q d Hop Htgt. unfold validate_query.
  destruct (String.eqb q ""); [eauto|]. cbv zeta.
  destruct (first_forbidden FORBIDDEN_KEYWORDS (py_strip (py_upper q))); [eauto|].
  rewrite Hop. cbn -[validate_insert validate_select].
  unfold validate_insert.
  destruct (insert_target q d) as [dt|] eqn:Ht; [|eauto].
  destruct (String.eqb dt ""); [eauto|].
  rewrite (Htgt dt eq_refl). cbn [negb]. eauto.
Qed.

Lemma C3_insert_outside_allow_list_rejected_witness :
  exists msg, validate_query (fun _ _ => Ok true)
                "INSERT INTO tabUser (name) VALUES ('x')" None = Ok (false, msg).
Proof.
  apply C3_insert_outside_allow_list_rejected.
  - vm_compute. reflexivity.
  - intros dt H. vm_compute in H. inversion H. subst. vm_compute. reflexivity.
Defined.

(** Claim C7: an INSERT whose lower-cased text contains one of the reserved
    field names [docstatus], [idx], [lft], [rgt], [_user_tags], [_liked_by]
    anywhere is never accepted, whatever the permission oracle answers; in
    particular no accepted statement names [docstatus]. *)
Theorem C7_insert_with_reserved_field_rejected :
  forall (has_permission : string -> string -> result bool) (q : string)
         (doctype : option string) (f : string),
    get_operation (py_strip (py_upper q)) = "INSERT" ->
    In f forbidden_fields ->
    contains f (py_lower q) = true ->
    accepted (validate_query has_permission q doctype) = false.
Proof.
  intros hp q d f Hop Hf Hc. unfold validate_query.
  destruct (String.eqb q ""); [reflexivity|]. cbv zeta.
  destruct (first_forbidden FORBIDDEN_KEYWORDS (py_strip (py_upper q))); [reflexivity|].
  rewrite Hop. cbn -[validate_insert validate_select accepted].
  unfold validate_insert.
  destruct (insert_target q d) as [dt|]; [|reflexivity].
  destruct (String.eqb dt ""); [reflexivity|].
  destruct (negb (member dt ALLOWED_INSERT_DOCTYPES)); [reflexivity|].
  destruct (hp dt "create") as [b|e]; cbn [bind]; [|reflexivity].
  destruct (negb b); [reflexivity|]. cbv zeta.
  destruct (find (fun f0 => contains f0 (py_lower q)) forbidden_fields) eqn:Hfind;
    [reflexivity|].
  pose proof (find_none _ _ Hfind f Hf) as Hn. cbn beta in Hn.
  rewrite Hc in Hn. discriminate.
Qed.

Lemma C7_insert_with_reserved_field_rejected_witness :
  accepted (validate_query (fun _ _ => Ok true)
              "INSERT INTO tabLead (lead_name, docstatus) VALUES ('x', 1)" None) = false.
Proof.
  apply (C7_insert_with_reserved_field_rejected _ _ _ "docstatus").
  - vm_compute. reflexivity.
  - left. reflexivity.
  - vm_compute. reflexivity.
Defined.

(** Claim C10: a SELECT with no denylist match and no [INTO OUTFILE] all of
    whose FROM/JOIN tables (as [_extract_tables] finds them) lack the
    case-sensitive prefix [tab] is accepted for every permission oracle,
    one that denies or raises included: the oracle is never consulted. *)
Theorem C10_select_without_tab_tables_skips_oracle :
  forall (has_permission : string -> string -> result bool) (q : string)
         (doctype : option string),
    get_operation (py_strip (py_upper q)) = "SELECT" ->
    first_forbidden FORBIDDEN_KEYWORDS (py_strip (py_upper q)) = None ->
    contains "INTO OUTFILE" (py_upper q) = false ->
    (forall t, In t (extract_tables q) -> startswith t "tab" = false) ->
    validate_query has_permission q doctype = Ok (true, None).
Proof.
  intros hp q d Hop Hforb Hout Htabs. unfold validate_query.
  destruct (String.eqb q "") eqn:Hq.
  - apply String.eqb_eq in Hq. subst q. discriminate Hop.
  - cbv zeta. rewrite Hforb, Hop. cbn -[validate_insert validate_select].
    unfold validate_select. rewrite (check_read_no_tab hp _ Htabs). cbn [bind].
    rewrite Hout. reflexivity.
Qed.

Lemma C10_select_without_tab_tables_skips_oracle_witness :
  validate_query (fun dt _ => Raise (External ("DocType " ++ dt ++ " not found")))
    "SELECT TABLE_NAME FROM information_schema.TABLES" None = Ok (true, None).
Proof.
  apply C10_select_without_tab_tables_skips_oracle.
  - vm_compute. reflexivity.
  - vm_compute. reflexivity.
  - vm_compute. reflexivity.
  - intros t Ht. vm_compute in Ht. destruct Ht as [<-|[]]. vm_compute. reflexivity.
Defined.

End Guard.

(** ** The template renderers *)

Module Templates.
Import Re Notions ReFacts.

Lemma digit_no_bs d : d < 10 -> no_bs (ascii_of_nat (48 + d)) = true.
Proof. intros H. do 10 (destruct d as [|d]; [reflexivity|]). lia. Qed.

Lemma dec_aux_no_bs f : forall n acc, all_chars no_bs acc = true -> all_chars no_bs (dec_aux f n acc) = true.
Proof.
  induction f as [|f IH]; intros n acc H; cbn [dec_aux]; [exact H|].
  assert (Hd : all_chars no_bs (String (ascii_of_nat (48 + n mod 10)) acc) = true).
  { cbn [all_chars]. rewrite digit_no_bs, H; [reflexivity|]. apply Nat.mod_upper_bound. lia. }
  destruct (n <? 10)%nat; [exact Hd|]. apply IH, Hd.
Qed.

Lemma dec_no_bs n : all_chars no_bs (dec n) = true.
Proof. apply dec_aux_no_bs. reflexivity. Qed.

Lemma concat_no_bs l : Forall (fun s => all_chars no_bs s = true) l -> all_chars no_bs (concat_str l) = true.
Proof.
  induction 1 as [|x l Hx _ IH]; [reflexivity|]. simpl. rewrite all_chars_app, Hx, IH. reflexivity.
Qed.

Lemma idx_array : findall3 false false Renderer.array_pattern index_template = [].
Proof. vm_compute. reflexivity. Qed.

Lemma idx_simple : findall1 false false Renderer.simple_pattern index_template = ["loop.index"].
Proof. vm_compute. reflexivity. Qed.

Lemma idx_loop : findall3 false true Renderer.loop_pattern index_template = [("r", "xs", "{{loop.index}}")].
Proof. vm_compute. reflexivity. Qed.

Lemma idx_var_r : findall1 false false Renderer.var_pattern "{{loop.index}}" = ["loop.index"].
Proof. vm_compute. reflexivity. Qed.

Lemma idx_full : scan false true (Renderer.full_pattern "r" "xs") index_template
                 = [(0, MS 43 (Some "}"%char) "" [])].
Proof. vm_compute. reflexivity. Qed.

Lemma idx_var_c : findall1 false false Chat.var_pattern "{{loop.index}}" = ["loop.index"].
Proof. vm_compute. reflexivity. Qed.

Lemma idx_chat_simple : findall1 false false Chat.placeholder_pattern index_template
                        = ["% for r in xs %"; "loop.index"; "% endfor %"].
Proof. vm_compute. reflexivity. Qed.


Lemma render_items_index_r rows :
  forall i, Renderer.render_items "r" "{{loop.index}}" i rows
            = Ok (map (fun j => String nl (dec (j + 1))) (seq i (length rows))).
Proof.
  induction rows as [|it rows IH]; intros i; [reflexivity|].
  cbn [Renderer.render_items]. unfold Renderer.render_item. rewrite idx_var_r.
  cbn [fold_res]. unfold Renderer.item_step. cbn [split_on Ascii.eqb String.eqb].
  assert (E : sub false false (Renderer.placeholder_pattern "loop.index") (String nl (dec (i + 1)))
                "{{loop.index}}" = Ok (String nl (dec (i + 1)))).
  { apply sub_placeholder; [discriminate|reflexivity|]. simpl. apply dec_no_bs. }
  change (String (ascii_of_nat 10) (dec (i + 1))) with (String nl (dec (i + 1))).
  rewrite E. cbn [bind fold_res]. rewrite IH. reflexivity.
Qed.

Lemma render_items_index_c rows :
  forall i, Chat.render_items "r" "{{loop.index}}" i rows
            = Ok (map (fun j => dec (j + 1)) (seq i (length rows))).
Proof.
  induction rows as [|it rows IH]; intros i; [reflexivity|].
  cbn [Chat.render_items]. unfold Chat.render_item. rewrite idx_var_c.
  cbn [fold_res]. unfold Chat.item_step. cbn [split_on Ascii.eqb String.eqb bind].
  change (Chat.braced (Chat.braced "loop.index")) with "{{loop.index}}".
  rewrite py_replace_self by discriminate. cbn [bind fold_res]. rewrite IH. reflexivity.
Qed.




(** In [template_renderer.py], when resolved and unresolved blocks are
    mixed, the [re.sub] of a resolved block can consume the [{% endfor %}]
    of an unresolved one that precedes it. *)
Lemma loop_mixed_blocks_renderer :
  Renderer.render_template
    "{% for y in missing %}{% for x in xs %}a{% endfor %} {% for x in xs %}b{% endfor %}"
    [("xs", VList [VDict []])]
  = Ok "{% for y in missing %}b b".
Proof. vm_compute; reflexivity. Qed.



(** C5: two loops with the same header.  [template_renderer.py] substitutes
    the rendering of the first block for every match of its [full_pattern],
    so the second block, and the unresolved [{{missing}}] in it, is erased;
    [chat.py] replaces only the exact block it rendered and keeps
    [{{missing}}]. *)
Theorem C5_same_header_loop_erases_placeholder :
  Renderer.render_template "{% for x in xs %}A{% endfor %}{% for x in xs %}{{missing}}{% endfor %}"
    [("xs", VList [VDict []])] = Ok "AA" /\
  Chat.render_template "{% for x in xs %}A{% endfor %}{% for x in xs %}{{missing}}{% endfor %}"
    [("xs", VList [VDict []])] = Ok "A{{missing}}".
Proof. split; vm_compute; reflexivity. Qed.

(** C6: a bound value with a backslash ([C:\data]) is passed to [re.sub] as
    the replacement template; [\d] is a bad escape there and
    [template_renderer.py]'s [render_template] raises [re.error].  [chat.py]
    inserts the value with [str.replace] and returns. *)
Theorem C6_backslash_value_raises :
  Renderer.render_template "{{a}}" [("a", VStr "C:\data")] = Raise (ReError "bad escape") /\
  Chat.render_template "{{a}}" [("a", VStr "C:\data")] = Ok "{C:\data}".
Proof. split; vm_compute; reflexivity. Qed.

(** C8: for a non-empty collection, [{{loop.index}}] of the row at position
    [i] is rendered by [template_renderer.py] as a newline followed by the
    decimal [i + 1], and by [chat.py] as exactly the decimal [i + 1]. *)
Theorem C8_loop_index_text (rows : list pyval) (Hr : rows <> []) :
  Renderer.render_template index_template [("xs", VList rows)]
    = Ok (concat_str (map (fun i => String nl (dec (i + 1))) (seq 0 (length rows)))) /\
  Chat.render_template index_template [("xs", VList rows)]
    = Ok (concat_str (map (fun i => dec (i + 1)) (seq 0 (length rows)))).
Proof.
  split.
  - unfold Renderer.render_template, Renderer.array_pass. rewrite idx_array. cbn [fold_res bind].
    unfold Renderer.simple_pass. rewrite idx_simple. cbn [fold_res].
    replace (Renderer.simple_step [("xs", VList rows)] index_template "loop.index")
      with (Ok (A := string) index_template) by reflexivity.
    cbn [bind]. unfold Renderer.loop_pass. rewrite idx_loop. cbn [fold_res].
    unfold Renderer.loop_step. unfold Renderer.resolve_collection.
    replace (dict_get [("xs", VList rows)] "xs") with (Some (VList rows)) by reflexivity.
    destruct rows as [|r0 rs]; [congruence|].
    rewrite render_items_index_r. cbn [bind].
    rewrite sub_lit.
    + rewrite idx_full, sub_build_whole, expand_lit; reflexivity.
    + apply concat_no_bs. apply Forall_forall. intros s Hs. apply in_map_iff in Hs as (j & <- & _).
      simpl. apply dec_no_bs.
  - unfold Chat.render_template, Chat.simple_pass. rewrite idx_chat_simple.
    replace (fold_res (Chat.simple_step [("xs", VList rows)])
               ["% for r in xs %"; "loop.index"; "% endfor %"] index_template)
      with (Ok index_template) by reflexivity.
    cbn [bind]. unfold Chat.loop_pass, Chat.loop_pattern. rewrite idx_loop. cbn [fold_res].
    unfold Chat.loop_step.
    replace (dict_get [("xs", VList rows)] "xs") with (Some (VList rows)) by reflexivity.
    rewrite render_items_index_c. cbn [bind].
    change (Chat.loop_str "r" "xs" "{{loop.index}}") with index_template.
    rewrite py_replace_self by discriminate. reflexivity.
Qed.

Lemma C8_loop_index_text_witness :
  Renderer.render_template index_template [("xs", VList [VDict []; VDict []])]
    = Ok (String nl (String "1" (String nl "2"))) /\
  Chat.render_template index_template [("xs", VList [VDict []; VDict []])] = Ok "12".
Proof. apply (C8_loop_index_text [VDict []; VDict []]). discriminate. Defined.




End Templates.

(** ** Further properties of [sql_validator.py] *)

Module ValidatorProps.
Import Re SQLValidator SQLValidatorFacts Notions ReFacts.

Lemma check_read_shape hp ts b e :
  check_read hp ts = Ok (Some (b, e)) -> b = false /\ e <> None.
Proof.
  induction ts as [|t ts IH]; simpl; intros H; [discriminate|].
  destruct (table_to_doctype t) as [dt|]; [|exact (IH H)].
  destruct (String.eqb dt ""); [exact (IH H)|].
  destruct (hp dt "read") as [[|]|]; cbn [bind] in H; [exact (IH H)| |discriminate].
  injection H as <- <-. split; [reflexivity | discriminate].
Qed.

Lemma check_read_granted hp ts :
  check_read hp ts = Ok None ->
  forall t dt, In t ts -> table_to_doctype t = Some dt -> dt <> "" -> hp dt "read" = Ok true.
Proof.
  induction ts as [|t0 ts IH]; simpl; intros H t dt Hin Ht Hne; [destruct Hin|].
  destruct (table_to_doctype t0) as [dt0|] eqn:Ht0.
  - destruct (String.eqb dt0 "") eqn:E.
    + destruct Hin as [<-|Hin]; [|exact (IH H t dt Hin Ht Hne)].
      rewrite Ht in Ht0. injection Ht0 as <-. apply String.eqb_eq in E. contradiction.
    + destruct (hp dt0 "read") as [[|]|] eqn:Hp; cbn [bind] in H; try discriminate.
      destruct Hin as [<-|Hin]; [|exact (IH H t dt Hin Ht Hne)].
      rewrite Ht in Ht0. injection Ht0 as <-. exact Hp.
  - destruct Hin as [<-|Hin]; [congruence | exact (IH H t dt Hin Ht Hne)].
Qed.

Ltac verdict_done H :=
  injection H as <- <-; split; intro; congruence.

Lemma verdict_shape hp q d b e :
  validate_query hp q d = Ok (b, e) -> (b = true <-> e = None).
Proof.
  intros H. unfold validate_query in H.
  destruct (String.eqb q ""); [verdict_done H|]. cbv zeta in H.
  destruct (first_forbidden FORBIDDEN_KEYWORDS (py_strip (py_upper q))); [verdict_done H|].
  destruct (negb (member (get_operation (py_strip (py_upper q))) ALLOWED_OPERATIONS));
    [verdict_done H|].
  destruct (String.eqb (get_operation (py_strip (py_upper q))) "SELECT").
  - unfold validate_select in H.
    destruct (check_read hp (extract_tables q)) as [[v|]|] eqn:Hc; cbn [bind] in H;
      [| |discriminate].
    + injection H as ->. apply check_read_shape in Hc as [-> Hn].
      split; intro; congruence.
    + destruct (contains "INTO OUTFILE" (py_upper q)); verdict_done H.
  - destruct (String.eqb (get_operation (py_strip (py_upper q))) "INSERT"); [|verdict_done H].
    unfold validate_insert in H.
    destruct (insert_target q d) as [dt|]; [|verdict_done H].
    destruct (String.eqb dt ""); [verdict_done H|].
    destruct (negb (member dt ALLOWED_INSERT_DOCTYPES)); [verdict_done H|].
    destruct (hp dt "create") as [ok|ex]; cbn [bind] in H; [|discriminate].
    destruct (negb ok); [verdict_done H|]. cbv zeta in H.
    destruct (find (fun f => contains f (py_lower q)) forbidden_fields); verdict_done H.
Qed.

Lemma prefix_split w s : String.prefix w s = true -> exists rest, s = w ++ rest.
Proof.
  revert s. induction w as [|a w IH]; intros s H; [exists s; reflexivity|].
  destruct s as [|b s]; simpl in H; [discriminate|].
  destruct (ascii_dec a b) as [<-|]; [|discriminate].
  destruct (IH s H) as [rest ->]. exists rest. reflexivity.
Qed.

Lemma contains_split w s : contains w s = true -> exists p rest, s = p ++ w ++ rest.
Proof.
  induction s as [|c s IH]; intros H.
  - simpl in H. destruct w; [|discriminate]. exists "", "". reflexivity.
  - cbn [contains] in H. apply orb_true_iff in H as [H|H].
    + apply prefix_split in H as [rest Hr]. exists "", rest. exact Hr.
    + destruct (IH H) as [p [rest ->]]. exists (String c p), rest. reflexivity.
Qed.

Lemma search_from_found i d r s' :
  (forall pos prev, match_here i d r pos prev s' <> None) ->
  forall p pos prev, search_from i d r pos prev (p ++ s') <> None.
Proof.
  intros Hs p. induction p as [|c p IH]; intros pos prev; simpl.
  - specialize (Hs pos prev). destruct s' as [|c0 s0]; simpl;
      (match goal with |- context [match_here ?a ?b ?c ?e ?f ?g] =>
         destruct (match_here a b c e f g) eqn:E end); try discriminate; contradiction.
  - destruct (match_here i d r pos prev (String c (p ++ s'))); [discriminate|].
    apply IH.
Qed.

Lemma comments_hit w rest pos prev :
  In w ["--"; "#"; "/*"] -> match_here true false forbidden_comments pos prev (w ++ rest) <> None.
Proof.
  intros Hin. destruct Hin as [<-|[<-|[<-|[]]]]; cbn; discriminate.
Qed.

Lemma comments_found w qu :
  In w ["--"; "#"; "/*"] -> contains w qu = true ->
  exists src, first_forbidden FORBIDDEN_KEYWORDS qu = Some src.
Proof.
  intros Hin Hc. apply contains_split in Hc as [p [rest ->]].
  unfold FORBIDDEN_KEYWORDS. cbn [first_forbidden].
  destruct (found true false forbidden_verbs (p ++ w ++ rest)); [eauto|].
  destruct (found true false forbidden_procs (p ++ w ++ rest)); [eauto|].
  unfold found.
  destruct (search_from true false forbidden_comments 0 None (p ++ w ++ rest)) eqn:E; [eauto|].
  exfalso. revert E. apply search_from_found. intros pos prev. apply comments_hit, Hin.
Qed.

(** [validate_query] reports an error message exactly when it rejects:
    [is_valid] is [True] iff [error_message] is [None]. *)
Theorem validate_query_error_iff_rejected hp q d b e :
  validate_query hp q d = Ok (b, e) -> (b = true <-> e = None).
Proof. apply verdict_shape. Qed.

Lemma validate_query_error_iff_rejected_witness :
  false = true <-> Some "Forbidden operation detected: (--|#|\/\*)" = None.
Proof.
  apply (validate_query_error_iff_rejected (fun _ _ => Ok true) "SELECT 1 -- x" None).
  vm_compute. reflexivity.
Defined.

(** A SHOW or DESCRIBE statement that no forbidden pattern matches is
    accepted without any permission check: the result is the same for every
    permission oracle. *)
Theorem show_describe_accepted_unchecked hp q d :
  first_forbidden FORBIDDEN_KEYWORDS (py_strip (py_upper q)) = None ->
  In (get_operation (py_strip (py_upper q))) ["SHOW"; "DESCRIBE"] ->
  validate_query hp q d = Ok (true, None).
Proof.
  intros Hf Hin. unfold validate_query.
  destruct (String.eqb q "") eqn:E.
  - apply String.eqb_eq in E. subst q. cbn in Hin.
    destruct Hin as [H|[H|[]]]; discriminate.
  - cbv zeta. rewrite Hf.
    destruct Hin as [Hs|[Hs|[]]]; rewrite <- Hs; reflexivity.
Qed.

Lemma show_describe_accepted_unchecked_witness :
  validate_query (fun _ _ => Raise (External "no permission check expected"))
    "show tables" None = Ok (true, None).
Proof.
  apply show_describe_accepted_unchecked.
  - vm_compute. reflexivity.
  - vm_compute. left. reflexivity.
Defined.

(** A statement whose stripped upper-cased text contains [--], [#] or [/*]
    anywhere, inside a quoted string too, is rejected as a forbidden
    operation, whatever the permission oracle. *)
Theorem comment_marker_rejected hp q d w :
  In w ["--"; "#"; "/*"] ->
  contains w (py_strip (py_upper q)) = true ->
  exists src, validate_query hp q d = Ok (false, Some ("Forbidden operation detected: " ++ src)).
Proof.
  intros Hin Hc. unfold validate_query.
  destruct (String.eqb q "") eqn:E.
  - apply String.eqb_eq in E. subst q.
    destruct Hin as [<-|[<-|[<-|[]]]]; discriminate Hc.
  - cbv zeta. destruct (comments_found w _ Hin Hc) as [src ->]. eauto.
Qed.

Lemma comment_marker_rejected_witness :
  exists src, validate_query (fun _ _ => Ok true)
    "SELECT name FROM tabLead WHERE name = 'a#1'" None
    = Ok (false, Some ("Forbidden operation detected: " ++ src)).
Proof.
  apply (comment_marker_rejected _ _ _ "#").
  - right. left. reflexivity.
  - vm_compute. reflexivity.
Defined.

(** An accepted SELECT had read permission on the DocType of every
    [tab]-prefixed table named after FROM or JOIN, and does not contain
    [INTO OUTFILE]. *)
Theorem select_accepted_read_permitted hp q d e :
  get_operation (py_strip (py_upper q)) = "SELECT" ->
  validate_query hp q d = Ok (true, e) ->
  (forall t dt, In t (extract_tables q) -> table_to_doctype t = Some dt -> dt <> "" ->
     hp dt "read" = Ok true) /\
  contains "INTO OUTFILE" (py_upper q) = false.
Proof.
  intros Hop H. unfold validate_query in H.
  destruct (String.eqb q ""); [discriminate|]. cbv zeta in H.
  destruct (first_forbidden FORBIDDEN_KEYWORDS (py_strip (py_upper q))); [discriminate|].
  rewrite Hop in H. cbn -[validate_select] in H.
  unfold validate_select in H.
  destruct (check_read hp (extract_tables q)) as [[v|]|] eqn:Hc; cbn [bind] in H;
    [| |discriminate].
  - injection H as ->. apply check_read_shape in Hc as [Hb _]. discriminate Hb.
  - destruct (contains "INTO OUTFILE" (py_upper q)); [discriminate|].
    split; [exact (check_read_granted hp _ Hc) | reflexivity].
Qed.

Lemma select_accepted_read_permitted_witness :
  (forall t dt, In t (extract_tables "SELECT name FROM tabLead") ->
     table_to_doctype t = Some dt -> dt <> "" -> Ok true = (Ok true : result bool)) /\
  contains "INTO OUTFILE" (py_upper "SELECT name FROM tabLead") = false.
Proof.
  apply (select_accepted_read_permitted (fun _ _ => Ok true) _ None None);
    vm_compute; reflexivity.
Defined.

(** An accepted INSERT targets a DocType of [ALLOWED_INSERT_DOCTYPES] (the
    argument, or the one named after INTO) for which the create permission
    was granted. *)
Theorem insert_accepted_allowed_permitted hp q d e :
  get_operation (py_strip (py_upper q)) = "INSERT" ->
  validate_query hp q d = Ok (true, e) ->
  exists dt, insert_target q d = Some dt /\ member dt ALLOWED_INSERT_DOCTYPES = true /\
             hp dt "create" = Ok true.
Proof.
  intros Hop H. unfold validate_query in H.
  destruct (String.eqb q ""); [discriminate|]. cbv zeta in H.
  destruct (first_forbidden FORBIDDEN_KEYWORDS (py_strip (py_upper q))); [discriminate|].
  rewrite Hop in H. cbn -[validate_insert] in H.
  unfold validate_insert in H.
  destruct (insert_target q d) as [dt|]; [|discriminate].
  destruct (String.eqb dt ""); [discriminate|].
  destruct (member dt ALLOWED_INSERT_DOCTYPES) eqn:Hm; cbn [negb] in H; [|discriminate].
  destruct (hp dt "create") as [[|]|ex] eqn:Hp; cbn [bind negb] in H; try discriminate.
  eauto.
Qed.

Lemma insert_accepted_allowed_permitted_witness :
  exists dt, insert_target "INSERT INTO tabNote (title) VALUES ('x')" None = Some dt /\
             member dt ALLOWED_INSERT_DOCTYPES = true /\
             (fun _ _ => Ok true : result bool) dt "create" = Ok true.
Proof.
  apply (insert_accepted_allowed_permitted _ _ _ None); vm_compute; reflexivity.
Defined.

(** [validate_and_execute_query] raises only through the permission
    oracle: when [frappe.has_permission] never raises, it always returns a
    result dict, whatever [frappe.db.sql] does. *)
Theorem execute_total_if_permission_total hp db q d :
  (forall dt ptype, exists b, hp dt ptype = Ok b) ->
  exists r, validate_and_execute_query hp db q d = Ok r.
Proof.
  intros Hhp. unfold validate_and_execute_query.
  destruct (validate_query_total hp q d Hhp) as [[b e] ->]. cbn [bind].
  destruct (negb b); [eauto|]. destruct (db q); eauto.
Qed.

Lemma execute_total_if_permission_total_witness :
  exists r, validate_and_execute_query (fun _ _ => Ok false)
              (fun _ => Raise (External "Table 'tabLead' doesn't exist"))
              "SELECT name FROM tabLead" None = Ok r.
Proof.
  apply execute_total_if_permission_total. intros _ _. exists false. reflexivity.
Defined.

(** [validate_and_execute_query] returns data exactly when the query was
    accepted and [frappe.db.sql] returned those rows. *)
Theorem execute_success_iff hp db q d rows :
  validate_and_execute_query hp db q d = Ok (Success rows) <->
  validate_query hp q d = Ok (true, None) /\ db q = Ok rows.
Proof.
  unfold validate_and_execute_query. split.
  - destruct (validate_query hp q d) as [[b e]|ex] eqn:Hv; cbn [bind]; [|discriminate].
    destruct b; cbn [negb]; [|discriminate].
    destruct (db q) as [rs|ex] eqn:Hd; [|discriminate].
    intros H. injection H as ->.
    apply verdict_shape in Hv. destruct Hv as [Hv _]. rewrite (Hv eq_refl). auto.
  - intros [-> ->]. reflexivity.
Qed.

(** A rejected query is never sent to the database: the result is the
    validation error, whatever [frappe.db.sql] would do. *)
Theorem rejected_never_executed hp db q d e :
  validate_query hp q d = Ok (false, e) ->
  validate_and_execute_query hp db q d = Ok (Failure e).
Proof. intros H. unfold validate_and_execute_query. rewrite H. reflexivity. Qed.

Lemma rejected_never_executed_witness :
  validate_and_execute_query (fun _ _ => Ok true)
    (fun _ => Raise (External "must not run"))
    "DROP TABLE tabLead" None = Ok (Failure (Some ("Forbidden operation detected: " ++
      "\b(DELETE|DROP|TRUNCATE|ALTER|UPDATE|GRANT|REVOKE|CREATE\s+DATABASE|DROP\s+DATABASE)\b"))).
Proof. apply rejected_never_executed. vm_compute. reflexivity. Defined.

End ValidatorProps.

(** ** Properties of [create_safe_record] *)

Module RecordProps.
Import SQLValidator Notions.

Lemma find_key_map (d : dict) k v :
  find (fun kv => String.eqb (fst kv) k)
       (map (fun kv => if String.eqb (fst kv) k then (k, v) else kv) d)
  = if existsb (fun kv => String.eqb (fst kv) k) d then Some (k, v) else None.
Proof.
  induction d as [|[k0 v0] d IH]; [reflexivity|]. simpl.
  destruct (String.eqb k0 k) eqn:E; simpl; [rewrite String.eqb_refl; reflexivity|].
  rewrite E. exact IH.
Qed.

Lemma find_key_map_other (d : dict) k k' v :
  k' <> k ->
  find (fun kv => String.eqb (fst kv) k)
       (map (fun kv => if String.eqb (fst kv) k' then (k', v) else kv) d)
  = find (fun kv => String.eqb (fst kv) k) d.
Proof.
  intros Hne. induction d as [|[k0 v0] d IH]; [reflexivity|]. simpl.
  destruct (String.eqb k0 k') eqn:E; simpl.
  - apply String.eqb_eq in E. subst k0.
    rewrite (proj2 (String.eqb_neq k' k) Hne). exact IH.
  - destruct (String.eqb k0 k); [reflexivity | exact IH].
Qed.

Lemma find_key_app_none {A : Type} (d : list (string * A)) k (x : string * A) :
  existsb (fun kv => String.eqb (fst kv) k) d = false ->
  find (fun kv => String.eqb (fst kv) k) (d ++ [x])%list = find (fun kv => String.eqb (fst kv) k) [x].
Proof.
  induction d as [|[k0 v0] d IH]; [reflexivity|]. simpl.
  destruct (String.eqb k0 k); [discriminate|]. exact IH.
Qed.

Lemma find_key_app {A : Type} (d : list (string * A)) k (x : string * A) :
  find (fun kv => String.eqb (fst kv) k) (d ++ [x])%list =
  match find (fun kv => String.eqb (fst kv) k) d with
  | Some y => Some y
  | None => find (fun kv => String.eqb (fst kv) k) [x]
  end.
Proof.
  induction d as [|[k0 v0] d IH]; [reflexivity|]. simpl.
  destruct (String.eqb k0 k); [reflexivity | exact IH].
Qed.

Lemma dict_get_set_same d k v : dict_get (dict_set d k v) k = Some v.
Proof.
  unfold dict_get, dict_set.
  destruct (existsb (fun kv => String.eqb (fst kv) k) d) eqn:E.
  - rewrite find_key_map, E. reflexivity.
  - rewrite find_key_app_none by exact E. simpl. rewrite String.eqb_refl. reflexivity.
Qed.

Lemma dict_get_set_other d k k' v : k' <> k -> dict_get (dict_set d k' v) k = dict_get d k.
Proof.
  intros Hne. unfold dict_get, dict_set.
  destruct (existsb (fun kv => String.eqb (fst kv) k') d).
  - rewrite find_key_map_other by exact Hne. reflexivity.
  - rewrite find_key_app. simpl. rewrite (proj2 (String.eqb_neq k' k) Hne).
    destruct (find (fun kv => String.eqb (fst kv) k) d); reflexivity.
Qed.

Lemma fold_set_absent data d k :
  ~ In k (map fst data) -> dict_get (fold_left doc_step data d) k = dict_get d k.
Proof.
  revert d. induction data as [|[k0 v0] data IH]; intros d Hn; [reflexivity|].
  simpl in *. rewrite IH by tauto. unfold doc_step. simpl.
  apply dict_get_set_other. intros ->. tauto.
Qed.

Lemma fold_set_present data d k v :
  NoDup (map fst data) -> In (k, v) data -> dict_get (fold_left doc_step data d) k = Some v.
Proof.
  revert d. induction data as [|[k0 v0] data IH]; intros d Hnd Hin; [destruct Hin|].
  simpl in Hnd. inversion Hnd as [|? ? Hn Hnd']; subst. simpl.
  destruct Hin as [Heq|Hin].
  - injection Heq as -> ->. rewrite fold_set_absent by exact Hn.
    unfold doc_step. apply dict_get_set_same.
  - exact (IH _ Hnd' Hin).
Qed.

Lemma build_doc_doctype dt data v :
  NoDup (map fst data) -> In ("doctype", v) data ->
  dict_get (build_doc dt data) "doctype" = Some v.
Proof. apply fold_set_present. Qed.

(** [create_safe_record] reports success exactly when the DocType is in
    [ALLOWED_INSERT_DOCTYPES], the create permission is granted and the
    insertion of [{"doctype": doctype, **data}] returned a name; the message
    names the [doctype] argument. *)
Theorem create_safe_record_success_iff hp ins dt data nm msg :
  create_safe_record hp ins dt data = RecSuccess nm msg <->
  member dt ALLOWED_INSERT_DOCTYPES = true /\ hp dt "create" = Ok true /\
  ins (build_doc dt data) = Ok nm /\
  msg = dt ++ " " ++ nm ++ " created successfully (draft)".
Proof.
  unfold create_safe_record. split.
  - destruct (member dt ALLOWED_INSERT_DOCTYPES); cbn [negb]; [|discriminate].
    destruct (hp dt "create") as [[|]|ex]; try discriminate.
    destruct (ins (build_doc dt data)) as [n|ex]; [|discriminate].
    intros H. injection H as <- <-. auto.
  - intros (H1 & H2 & H3 & H4). subst msg. rewrite H1, H2. cbn. rewrite H3. reflexivity.
Qed.

(** A ["doctype"] key in [data] overrides the checked DocType: when
    [create_safe_record] succeeds, the inserted document has the DocType
    given in [data], which need not be in [ALLOWED_INSERT_DOCTYPES]. *)
Theorem created_doctype_from_data hp ins dt data v nm msg :
  NoDup (map fst data) -> In ("doctype", v) data ->
  create_safe_record hp ins dt data = RecSuccess nm msg ->
  exists doc, ins doc = Ok nm /\ dict_get doc "doctype" = Some v /\
              member dt ALLOWED_INSERT_DOCTYPES = true.
Proof.
  intros Hnd Hin H. apply create_safe_record_success_iff in H as (Hm & _ & Hi & _).
  exists (build_doc dt data). split; [exact Hi|]. split; [|exact Hm].
  apply build_doc_doctype; assumption.
Qed.

Lemma created_doctype_from_data_witness :
  exists doc, (fun _ => Ok "admin@example.com" : result string) doc = Ok "admin@example.com" /\
              dict_get doc "doctype" = Some (VStr "User") /\
              member "Lead" ALLOWED_INSERT_DOCTYPES = true.
Proof.
  apply (created_doctype_from_data (fun _ _ => Ok true) _ "Lead"
           [("doctype", VStr "User"); ("email", VStr "admin@example.com")] _ _
           "Lead admin@example.com created successfully (draft)").
  - repeat constructor; simpl; intuition discriminate.
  - left. reflexivity.
  - reflexivity.
Defined.

End RecordProps.

(** ** Properties of [AIProviderConfig] and of the model choice of
    [process_message] *)

Module ProviderProps.
Import AIProviderConfig.

Lemma provider_config_cases p :
  provider_config p = openai_defaults \/
  provider_config p = PD "deepseek-chat" ["deepseek-chat"; "deepseek-reasoner"].
Proof.
  unfold provider_config, defaults. cbn [find fst].
  destruct (String.eqb "OpenAI" p); [left; reflexivity|].
  destruct (String.eqb "DeepSeek" p); [right | left]; reflexivity.
Qed.

Lemma empty_not_valid p : is_valid_model p "" = false.
Proof.
  unfold is_valid_model, get_available_models.
  destruct (provider_config_cases p) as [-> | ->]; reflexivity.
Qed.

(** For every provider name, the default model is one of the provider's
    available models. *)
Theorem default_model_valid p : is_valid_model p (get_default_model p) = true.
Proof.
  unfold is_valid_model, get_available_models, get_default_model.
  destruct (provider_config_cases p) as [-> | ->]; reflexivity.
Qed.

(** A provider name other than [OpenAI] and [DeepSeek] (a misspelling such
    as [openai] too) silently gets OpenAI's default and models. *)
Theorem unknown_provider_uses_openai p :
  p <> "OpenAI" -> p <> "DeepSeek" ->
  get_default_model p = "gpt-3.5-turbo" /\
  get_available_models p = ["gpt-4"; "gpt-3.5-turbo"; "gpt-4-turbo"].
Proof.
  intros H1 H2. unfold get_default_model, get_available_models, provider_config, defaults.
  cbn [find fst].
  rewrite (proj2 (String.eqb_neq "OpenAI" p) (not_eq_sym H1)).
  rewrite (proj2 (String.eqb_neq "DeepSeek" p) (not_eq_sym H2)).
  split; reflexivity.
Qed.

Lemma unknown_provider_uses_openai_witness :
  get_default_model "openai" = "gpt-3.5-turbo" /\
  get_available_models "openai" = ["gpt-4"; "gpt-3.5-turbo"; "gpt-4-turbo"].
Proof. apply unknown_provider_uses_openai; discriminate. Defined.

(** [validate_provider_config] accepts exactly when the API key is set and,
    for DeepSeek, the base URL is set. *)
Theorem provider_config_ok_iff p key url :
  validate_provider_config p key url = (true, None) <->
  str_truthy key = true /\ (p = "DeepSeek" -> str_truthy url = true).
Proof.
  unfold validate_provider_config.
  destruct (str_truthy key); cbn [negb]; [|split; [discriminate | intros [H _]; discriminate]].
  destruct (String.eqb p "DeepSeek") eqn:E; cbn [andb].
  - apply String.eqb_eq in E. subst p.
    destruct (str_truthy url); cbn [negb].
    + split; auto.
    + split; [discriminate | intros [_ H]; specialize (H eq_refl); discriminate].
  - split; [|reflexivity]. intros _. split; [reflexivity|].
    intros ->. discriminate.
Qed.

(** The model [process_message] uses is always valid for the provider, and
    is the configured model whenever that one is valid. *)
Theorem chosen_model_valid p sm :
  is_valid_model p (chosen_model p sm) = true /\
  (forall x, sm = Some x -> is_valid_model p x = true -> chosen_model p sm = x).
Proof.
  split.
  - unfold chosen_model. cbv zeta.
    destruct (is_valid_model p (if str_truthy sm then
                                  match sm with Some x => x | None => get_default_model p end
                                else get_default_model p)) eqn:E;
      [exact E | apply default_model_valid].
  - intros x -> Hx. unfold chosen_model. cbv zeta.
    assert (Hne : str_truthy (Some x) = true).
    { unfold str_truthy. destruct (String.eqb x "") eqn:E; [|reflexivity].
      apply String.eqb_eq in E. subst x. rewrite empty_not_valid in Hx. discriminate. }
    rewrite Hne, Hx. reflexivity.
Qed.

End ProviderProps.

(** ** Properties of [get_cached_settings] *)

Module SettingsProps.
Import QArith SettingsCache.

(** Settings fetched at [t1] are served, without any new fetch, to every
    call whose clock is at most 300 seconds later; the first call later than
    that fetches them again and restarts the window. *)
Theorem settings_refresh_window {S : Type} (fetch : Q -> result S) (t1 t2 : Q) (s : S) :
  ((t2 - t1 <= 300)%Q ->
   get_cached_settings fetch t2 (Cache (Some t1) (Some s)) = Ok (Some s, Cache (Some t1) (Some s))) /\
  (~ (t2 - t1 <= 300)%Q ->
   get_cached_settings fetch t2 (Cache (Some t1) (Some s)) =
   bind (fetch t2) (fun s' => Ok (Some s', Cache (Some t2) (Some s')))).
Proof.
  unfold get_cached_settings. cbn [last_updated settings]. split; intros H.
  - apply Qle_bool_iff in H. rewrite H. reflexivity.
  - destruct (Qle_bool (t2 - t1) 300) eqn:E; [|reflexivity].
    apply Qle_bool_iff in E. contradiction.
Qed.

(** The first call fetches; a call within the next 300 seconds returns the
    same document, even if the stored settings changed meanwhile. *)
Theorem settings_stale_within_window {S : Type} (fetch : Q -> result S) (t1 t2 : Q) s v c :
  (t1 <= t2 <= t1 + 300)%Q ->
  fetch t1 = Ok s ->
  get_cached_settings fetch t1 (empty_cache S) = Ok (v, c) ->
  v = Some s /\ get_cached_settings fetch t2 c = Ok (Some s, c).
Proof.
  intros [H1 H2] Hf H. unfold get_cached_settings in H. cbn in H. rewrite Hf in H.
  cbn in H. injection H as <- <-. split; [reflexivity|].
  apply (proj1 (settings_refresh_window fetch t1 t2 s)).
  apply (Qle_trans _ (t1 + 300 - t1)).
  - apply Qplus_le_compat; [exact H2 | apply Qle_refl].
  - ring_simplify. apply Qle_refl.
Qed.

Lemma settings_stale_within_window_witness :
  Some 1%nat = Some 1%nat /\
  get_cached_settings (fun t => if Qle_bool t 0 then Ok 1%nat else Ok 2%nat) 200
    (Cache (Some 0) (Some 1%nat)) = Ok (Some 1%nat, Cache (Some 0) (Some 1%nat)).
Proof.
  apply (settings_stale_within_window _ 0 200 1%nat).
  - split; vm_compute; discriminate.
  - reflexivity.
  - reflexivity.
Defined.

End SettingsProps.

(** ** Properties of the conversation memories *)

Module MemoryProps.
Import Memories.

Lemma lookup_add_new {M} (st : store M) cid mem :
  lookup st cid = None -> lookup (add M st cid mem) cid = Some mem.
Proof.
  unfold lookup, add. intros H.
  rewrite RecordProps.find_key_app.
  destruct (find (fun kv => String.eqb (fst kv) cid) st) as [[]|]; [discriminate|].
  simpl. rewrite String.eqb_refl. reflexivity.
Qed.

(** A conversation's memory is built once: after [get_or_create_memory]
    succeeded, the next call returns the same memory and leaves the store as
    it is, without building anything. *)
Theorem memory_built_once {M} (create : string -> result M) st cid mem st1 :
  get_or_create_memory create st cid = Ok (mem, st1) ->
  forall create', get_or_create_memory create' st1 cid = Ok (mem, st1).
Proof.
  unfold get_or_create_memory. intros H create'.
  destruct (lookup st cid) as [m0|] eqn:E.
  - injection H as -> ->. rewrite E. reflexivity.
  - destruct (create cid) as [m0|ex]; cbn [bind] in H; [|discriminate].
    injection H as -> <-. rewrite lookup_add_new by exact E. reflexivity.
Qed.

Lemma memory_built_once_witness :
  get_or_create_memory (fun _ => Raise (External "not called")) [("c1", 7%nat)] "c1"
  = Ok (7%nat, [("c1", 7%nat)]).
Proof.
  apply (memory_built_once (fun _ => Ok 7%nat) [] "c1"). reflexivity.
Defined.

Lemma lookup_remove {M} (st : store M) cid cid' :
  lookup (remove st cid) cid' = if String.eqb cid' cid then None else lookup st cid'.
Proof.
  unfold lookup, remove. induction st as [|[k m] st IH]; simpl.
  - destruct (String.eqb cid' cid); reflexivity.
  - destruct (String.eqb k cid) eqn:E1; simpl.
    + rewrite IH. apply String.eqb_eq in E1. subst k.
      destruct (String.eqb cid' cid) eqn:E2; [reflexivity|].
      rewrite (proj2 (String.eqb_neq cid cid')); [reflexivity|].
      intros ->. rewrite String.eqb_refl in E2. discriminate.
    + destruct (String.eqb k cid') eqn:E2.
      * apply String.eqb_eq in E2. subst k. rewrite E1. reflexivity.
      * rewrite IH. reflexivity.
Qed.

(** [reset_conversation] forgets exactly that conversation: the next
    [get_or_create_memory] for it builds a new memory, and the memories of
    the other conversations stay. *)
Theorem reset_forgets_only_that {M} (create : string -> result M) st cid :
  get_or_create_memory create (reset_conversation st cid) cid =
    bind (create cid) (fun mem => Ok (mem, add M (reset_conversation st cid) cid mem)) /\
  (forall cid', cid' <> cid -> lookup (reset_conversation st cid) cid' = lookup st cid').
Proof.
  unfold reset_conversation.
  destruct (lookup st cid) as [m0|] eqn:E; split.
  - unfold get_or_create_memory. rewrite lookup_remove, String.eqb_refl. reflexivity.
  - intros cid' Hne. rewrite lookup_remove.
    rewrite (proj2 (String.eqb_neq cid' cid) Hne). reflexivity.
  - unfold get_or_create_memory. rewrite E. reflexivity.
  - reflexivity.
Qed.

End MemoryProps.

(** ** Properties of [_lightweight_search] *)

Module LightweightProps.
Import Lightweight Notions.

Lemma in_firstn {A : Type} n (l : list A) x : In x (firstn n l) -> In x l.
Proof.
  revert l. induction n as [|n IH]; intros l H; [destruct H|].
  destruct l as [|y l]; [destruct H|]. destruct H as [<-|H]; [left; reflexivity | right; exact (IH l H)].
Qed.

Lemma insert_desc_in x l y : In y (insert_desc x l) <-> x = y \/ In y l.
Proof.
  induction l as [|z l IH]; simpl; [tauto|].
  destruct (Nat.ltb (score z) (score x)); simpl; [tauto|]. rewrite IH. tauto.
Qed.

Lemma sort_desc_in_aux l acc y :
  In y (fold_left (fun acc x => insert_desc x acc) l acc) <-> In y l \/ In y acc.
Proof.
  revert acc. induction l as [|x l IH]; intros acc; simpl; [tauto|].
  rewrite IH, insert_desc_in. tauto.
Qed.

Lemma sort_desc_in l y : In y (sort_desc l) <-> In y l.
Proof. unfold sort_desc. rewrite sort_desc_in_aux. simpl. tauto. Qed.

Lemma insert_desc_sorted x l : Sorted score_ge l -> Sorted score_ge (insert_desc x l).
Proof.
  induction l as [|z l IH]; intros H; simpl; [repeat constructor|].
  destruct (Nat.ltb (score z) (score x)) eqn:E.
  - apply Nat.ltb_lt in E. constructor; [exact H|]. constructor. unfold score_ge. lia.
  - apply Nat.ltb_ge in E. inversion H as [|? ? Hs Hd]; subst.
    constructor; [exact (IH Hs)|].
    destruct l as [|w l]; simpl.
    + constructor. unfold score_ge. exact E.
    + inversion Hd as [|? ? Hzw]; subst.
      destruct (Nat.ltb (score w) (score x)); constructor; unfold score_ge in *; lia.
Qed.

Lemma sort_desc_sorted l : Sorted score_ge (sort_desc l).
Proof.
  unfold sort_desc. assert (H : Sorted score_ge (@nil scored)) by constructor.
  revert H. generalize (@nil scored). induction l as [|x l IH]; intros acc H; simpl; [exact H|].
  apply IH. apply insert_desc_sorted, H.
Qed.

Lemma score_ge_trans : Relations_1.Transitive score_ge.
Proof. intros a b c H1 H2. unfold score_ge in *. lia. Qed.


Lemma strongly_sorted_app_rel (l1 l2 : list scored) :
  StronglySorted score_ge (l1 ++ l2) -> forall a b, In a l1 -> In b l2 -> score_ge a b.
Proof.
  induction l1 as [|x l1 IH]; intros H a b Ha Hb; [destruct Ha|].
  simpl in H. apply StronglySorted_inv in H as [Hs Hf].
  destruct Ha as [<-|Ha].
  - rewrite Forall_forall in Hf. apply Hf, in_or_app. right. exact Hb.
  - exact (IH Hs a b Ha Hb).
Qed.

Lemma score_docs_in qw docs o :
  In o (score_docs qw docs) ->
  exists d, In d docs /\ content o = page_content d /\ s_metadata o = metadata d /\
            score o = doc_score qw (py_lower (page_content d)) /\ 0 < score o.
Proof.
  induction docs as [|d docs IH]; simpl; [tauto|].
  destruct (Nat.ltb 0 (doc_score qw (py_lower (page_content d)))) eqn:E; simpl.
  - intros [<-|H].
    + exists d. apply Nat.ltb_lt in E. simpl. auto.
    + destruct (IH H) as [d' Hd']. exists d'. tauto.
  - intros H. destruct (IH H) as [d' Hd']. exists d'. tauto.
Qed.

Lemma count_aux_pos f w s : 0 < count_aux f w s -> contains w s = true.
Proof.
  revert s. induction f as [|f IH]; intros s H; simpl in H; [lia|].
  destruct (String.prefix w s) eqn:Hp.
  - destruct s; cbn [contains]; rewrite Hp; reflexivity.
  - destruct s as [|c s]; [lia|]. cbn [contains]. rewrite (IH s H). apply orb_true_r.
Qed.

Lemma doc_score_aux_ge ws cl acc :
  acc <= fold_left (fun acc w => if Nat.ltb 2 (String.length w) then acc + py_count cl w else acc)
           ws acc.
Proof.
  revert acc. induction ws as [|w ws IH]; intros acc; simpl; [lia|].
  destruct (Nat.ltb 2 (String.length w)).
  - specialize (IH (acc + py_count cl w)). lia.
  - exact (IH acc).
Qed.

Lemma doc_score_aux_pos ws cl acc :
  acc < fold_left (fun acc w => if Nat.ltb 2 (String.length w) then acc + py_count cl w else acc)
          ws acc ->
  exists w, In w ws /\ 2 < String.length w /\ contains w cl = true.
Proof.
  revert acc. induction ws as [|w ws IH]; intros acc H; simpl in H; [lia|].
  destruct (Nat.ltb 2 (String.length w)) eqn:E.
  - destruct (Nat.lt_ge_cases (acc + py_count cl w)
               (fold_left (fun acc w => if Nat.ltb 2 (String.length w) then acc + py_count cl w else acc)
                  ws (acc + py_count cl w))) as [Hl|Hg].
    + destruct (IH _ Hl) as [w' Hw']. exists w'. simpl. tauto.
    + pose proof (doc_score_aux_ge ws cl (acc + py_count cl w)).
      apply Nat.ltb_lt in E. exists w. split; [left; reflexivity|]. split; [exact E|].
      unfold py_count in *.
      destruct (String.eqb w "") eqn:Ew.
      * apply String.eqb_eq in Ew. subst w. simpl in E. lia.
      * apply (count_aux_pos (S (String.length cl))). lia.
  - destruct (IH _ H) as [w' Hw']. exists w'. simpl. tauto.
Qed.


(** Every result comes from a loaded document whose lower-cased text
    contains a word of the lower-cased query longer than two characters. *)
Theorem lightweight_result_matches load q top_k o :
  In o (lightweight_search load q top_k) ->
  exists docs d w, load = Ok docs /\ In d docs /\ content o = page_content d /\
    s_metadata o = metadata d /\
    In w (py_split (py_lower q)) /\ 2 < String.length w /\
    contains w (py_lower (page_content d)) = true.
Proof.
  unfold lightweight_search. destruct load as [docs|ex]; [|simpl; tauto].
  intros Ho. apply in_firstn, sort_desc_in, score_docs_in in Ho.
  destruct Ho as (d & Hd & Hc & Hm & Hs & Hp). rewrite Hs in Hp.
  apply doc_score_aux_pos in Hp as (w & Hw & Hl & Hcw).
  exists docs, d, w. auto 8.
Qed.

Definition sample_docs : list document :=
  [Doc "Create a Sales Invoice from the sales menu" [("source", VStr "help")];
   Doc "Purchase orders and purchase receipts" [];
   Doc "Sales Order workflow" []].

Lemma lightweight_result_matches_witness :
  exists docs d w, Ok sample_docs = Ok docs /\ In d docs /\
    "Create a Sales Invoice from the sales menu" = page_content d /\
    [("source", VStr "help")] = metadata d /\
    In w (py_split (py_lower "sales invoice")) /\ 2 < String.length w /\
    contains w (py_lower (page_content d)) = true.
Proof.
  apply (lightweight_result_matches (Ok sample_docs) "sales invoice" 2
           (Scored "Create a Sales Invoice from the sales menu" [("source", VStr "help")]
              (VStr "help") 3)).
  vm_compute. left. reflexivity.
Defined.

(** Top-[k] selection: a document with a positive score that is left out
    scores no more than any returned one. *)
Theorem lightweight_top_k docs q top_k x :
  In x (score_docs (py_split (py_lower q)) docs) ->
  ~ In x (lightweight_search (Ok docs) q top_k) ->
  Forall (fun o => score x <= score o) (lightweight_search (Ok docs) q top_k).
Proof.
  unfold lightweight_search. intros Hx Hn. apply Forall_forall. intros o Ho.
  set (L := sort_desc (score_docs (py_split (py_lower q)) docs)) in *.
  assert (HL : In x L) by (apply sort_desc_in; exact Hx).
  rewrite <- (firstn_skipn top_k L) in HL. apply in_app_or in HL as [HL|HL]; [contradiction|].
  assert (Hs : StronglySorted score_ge (firstn top_k L ++ skipn top_k L)).
  { rewrite firstn_skipn. apply Sorted_StronglySorted; [exact score_ge_trans | apply sort_desc_sorted]. }
  exact (strongly_sorted_app_rel _ _ Hs o x Ho HL).
Qed.

Lemma lightweight_top_k_witness :
  Forall (fun o => score (Scored "Sales Order workflow" [] (VStr "Unknown") 2) <= score o)
    (lightweight_search (Ok sample_docs) "sales order" 1).
Proof.
  apply lightweight_top_k.
  - vm_compute. right. right. left. reflexivity.
  - vm_compute. intros [H|[]]. discriminate H.
Defined.

End LightweightProps.

(** ** Further properties of the two [render_template] functions *)

Module RenderProps.
Import Re Notions ReFacts.

Lemma fold_res_id {A : Type} (f : string -> A -> result string) l s :
  (forall s x, f s x = Ok s) -> fold_res f l s = Ok s.
Proof.
  intros H. revert s. induction l as [|x l IH]; intros s; simpl; [reflexivity|].
  rewrite H. apply IH.
Qed.

Lemma fold_res_total {A : Type} (f : string -> A -> result string) l s :
  (forall s x, In x l -> exists s', f s x = Ok s') -> exists r, fold_res f l s = Ok r.
Proof.
  revert s. induction l as [|x l IH]; intros s H; simpl; [eauto|].
  destruct (H s x (or_introl eq_refl)) as [s' ->]. cbn [bind].
  apply IH. intros s0 y Hy. apply H. right. exact Hy.
Qed.

(** With no query results, both renderers return the template unchanged. *)
Theorem render_empty_results t :
  Renderer.render_template t [] = Ok t /\ Chat.render_template t [] = Ok t.
Proof.
  split.
  - unfold Renderer.render_template, Renderer.array_pass, Renderer.simple_pass, Renderer.loop_pass.
    rewrite fold_res_id by (intros s [[k i] f]; reflexivity). cbn [bind].
    rewrite fold_res_id.
    2:{ intros s p. unfold Renderer.simple_step.
        destruct (split_on "." (py_strip p)) as [|a [|b [|c l]]]; try reflexivity.
        destruct (contains "[" a); reflexivity. }
    cbn [bind]. apply fold_res_id. intros s [[v c] b]. reflexivity.
  - unfold Chat.render_template, Chat.simple_pass, Chat.loop_pass.
    rewrite fold_res_id.
    2:{ intros s p. unfold Chat.simple_step.
        destruct (split_on "." p) as [|a [|b [|c l]]]; reflexivity. }
    cbn [bind]. apply fold_res_id. intros s [[v c] b]. reflexivity.
Qed.

Lemma findall1_nil i d r s : scan i d r s = [] -> findall1 i d r s = [].
Proof. unfold findall1. intros ->. reflexivity. Qed.

Lemma findall3_nil i d r s : scan i d r s = [] -> findall3 i d r s = [].
Proof. unfold findall3. intros ->. reflexivity. Qed.

(** A text without [{] is returned unchanged by both renderers, whatever
    the query results. *)
Theorem render_without_brace qr t :
  lacks "{" t = true ->
  Renderer.render_template t qr = Ok t /\ Chat.render_template t qr = Ok t.
Proof.
  intros Hl. split.
  - unfold Renderer.render_template, Renderer.array_pass, Renderer.simple_pass, Renderer.loop_pass.
    rewrite findall3_nil by (apply (scan_needs_nil "{"); [reflexivity | exact Hl]).
    cbn [fold_res bind].
    rewrite findall1_nil by (apply (scan_needs_nil "{"); [reflexivity | exact Hl]).
    cbn [fold_res bind].
    rewrite findall3_nil by (apply (scan_needs_nil "{"); [reflexivity | exact Hl]). reflexivity.
  - unfold Chat.render_template, Chat.simple_pass, Chat.loop_pass.
    rewrite findall1_nil by (apply (scan_needs_nil "{"); [reflexivity | exact Hl]).
    cbn [fold_res bind].
    rewrite findall3_nil by (apply (scan_needs_nil "{"); [reflexivity | exact Hl]). reflexivity.
Qed.

Lemma render_without_brace_witness :
  Renderer.render_template "Total: 42 (see %s)" [("rows", VList [VDict [("a", VInt 1)]])]
    = Ok "Total: 42 (see %s)" /\
  Chat.render_template "Total: 42 (see %s)" [("rows", VList [VDict [("a", VInt 1)]])]
    = Ok "Total: 42 (see %s)".
Proof. apply render_without_brace. reflexivity. Defined.

Lemma dict_get_in (d : dict) k v : dict_get d k = Some v -> In (k, v) d.
Proof.
  unfold dict_get. destruct (find (fun kv => String.eqb (fst kv) k) d) as [[k' v']|] eqn:E;
    [|discriminate].
  intros H. injection H as <-. apply find_some in E as [Hin Hk].
  apply String.eqb_eq in Hk. simpl in Hk. subst k'. exact Hin.
Qed.

Lemma rows_ok_get qr k v :
  rows_ok qr = true -> dict_get qr k = Some v ->
  exists rows, v = VList rows /\ forallb is_dict rows = true.
Proof.
  intros Hr Hg. apply dict_get_in in Hg. unfold rows_ok in Hr.
  rewrite forallb_forall in Hr. specialize (Hr _ Hg). simpl in Hr.
  destruct v; try discriminate. eauto.
Qed.

Lemma dict_access_total v k :
  is_dict v = true ->
  exists b, py_in k v = Ok b /\ (b = true -> exists x, py_getitem v k = Ok x).
Proof.
  destruct v as [| | | | |d]; try discriminate. intros _.
  exists (existsb (fun kv => String.eqb (fst kv) k) d). split; [reflexivity|].
  intros Hb. apply existsb_exists in Hb as [[k' x] [Hin Hk]].
  simpl. destruct (find (fun kv => String.eqb (fst kv) k) d) as [[k1 x1]|] eqn:E; [eauto|].
  exfalso. pose proof (find_none _ _ E (k', x) Hin) as Hn. simpl in Hn, Hk. congruence.
Qed.

Lemma chat_item_step_total v i item acc r :
  is_dict item = true -> exists s', Chat.item_step v i item acc r = Ok s'.
Proof.
  intros Hd. unfold Chat.item_step.
  destruct (split_on "." r) as [|p0 [|p1 l]]; [eauto|eauto|].
  destruct (String.eqb p0 v).
  - destruct (dict_access_total item p1 Hd) as [b [-> Hg]]. cbn [bind].
    destruct b; [|eauto]. destruct (Hg eq_refl) as [x ->]. cbn [bind]. eauto.
  - destruct (String.eqb p0 "loop"); [destruct (String.eqb p1 "index")|]; eauto.
Qed.

Lemma chat_render_items_total v b i items :
  forallb is_dict items = true -> exists rs, Chat.render_items v b i items = Ok rs.
Proof.
  revert i. induction items as [|it its IH]; intros i H; simpl; [eauto|].
  simpl in H. apply andb_true_iff in H as [H1 H2].
  unfold Chat.render_item.
  destruct (fold_res_total (Chat.item_step v i it) (findall1 false false Chat.var_pattern b) b)
    as [r ->]; [intros s x _; exact (chat_item_step_total v i it s x H1)|].
  cbn [bind]. destruct (IH (S i) H2) as [rs ->]. cbn [bind]. eauto.
Qed.

(** The renderer of [chat.py] never raises on the bindings [process_message]
    builds: every key bound to a list of dict rows. *)
Theorem chat_render_total_on_rows qr t :
  rows_ok qr = true -> exists r, Chat.render_template t qr = Ok r.
Proof.
  intros Hr. unfold Chat.render_template, Chat.simple_pass, Chat.loop_pass.
  destruct (fold_res_total (Chat.simple_step qr) (findall1 false false Chat.placeholder_pattern t) t)
    as [r1 ->].
  { intros s p _. unfold Chat.simple_step.
    destruct (split_on "." p) as [|key [|field [|c l]]]; try eauto.
    - destruct (dict_get qr key) as [[| | | |[|r0 rs]|]|]; eauto.
    - destruct (dict_get qr key) as [v|] eqn:Eg; [|eauto].
      destruct (rows_ok_get qr key v Hr Eg) as [rows [-> Hd]].
      destruct rows as [|r0 rs]; [eauto|]. simpl in Hd. apply andb_true_iff in Hd as [Hd _].
      destruct (dict_access_total r0 field Hd) as [b [-> Hg]]. cbn [bind].
      destruct b; [|eauto]. destruct (Hg eq_refl) as [x ->]. cbn [bind]. eauto. }
  cbn [bind]. apply fold_res_total. intros s [[v c] b] _. unfold Chat.loop_step.
  destruct (dict_get qr c) as [x|] eqn:Eg; [|eauto].
  destruct (rows_ok_get qr c x Hr Eg) as [rows [-> Hd]].
  destruct (chat_render_items_total v b 0 rows Hd) as [rs ->]. cbn [bind]. eauto.
Qed.

Lemma chat_render_total_on_rows_witness :
  exists r, Chat.render_template "{q.b} {% for x in q %}{{x.b}}{% endfor %}"
              [("q", VList [VDict [("b", VStr "abc")]; VDict []])] = Ok r.
Proof. apply chat_render_total_on_rows. reflexivity. Defined.

End RenderProps.

(** ** [layers/template_renderer.py] raises only through backslashes *)

Module RendererTotal.
Import Re Notions ReFacts RenderProps.

Lemma substring_chars (P : ascii -> bool) s :
  all_chars P s = true -> forall a b, all_chars P (substring a b s) = true.
Proof.
  induction s as [|c s IH]; intros H a b; [destruct a, b; reflexivity|].
  simpl in H. apply andb_true_iff in H as [Hc Hs].
  destruct a as [|a]; simpl; [|apply IH, Hs].
  destruct b as [|b]; [reflexivity|]. simpl. rewrite Hc. apply IH, Hs.
Qed.

Lemma group_chars (P : ascii -> bool) s p st n :
  all_chars P s = true -> all_chars P (group s p st n) = true.
Proof.
  intros H. unfold group. destruct n; [apply substring_chars, H|].
  destruct (find (fun e => Nat.eqb (fst e) (S n)) (ms_caps st)) as [[_ [a b]]|];
    [apply substring_chars, H | reflexivity].
Qed.

Lemma sub_build_no_bs s repl :
  all_chars no_bs s = true -> all_chars no_bs repl = true ->
  forall ms last, all_chars no_bs (sub_build s (lit_pieces repl) ms last) = true.
Proof.
  intros Hs Hr ms. induction ms as [|[p st] ms IH]; intros last; simpl.
  - apply substring_chars, Hs.
  - rewrite !all_chars_app, expand_lit, Hr, IH, substring_chars by exact Hs. reflexivity.
Qed.

Lemma sub_clean i d r repl s :
  all_chars no_bs repl = true -> all_chars no_bs s = true ->
  exists out, sub i d r repl s = Ok out /\ all_chars no_bs out = true.
Proof.
  intros Hr Hs. rewrite sub_lit by exact Hr. eexists. split; [reflexivity|].
  apply sub_build_no_bs; assumption.
Qed.

Lemma fold_res_inv {A : Type} (P : string -> Prop) (f : string -> A -> result string) l s :
  (forall s x, In x l -> P s -> exists s', f s x = Ok s' /\ P s') -> P s ->
  exists r, fold_res f l s = Ok r /\ P r.
Proof.
  revert s. induction l as [|x l IH]; intros s H Hs; simpl; [eauto|].
  destruct (H s x (or_introl eq_refl) Hs) as [s' [-> Hs']]. cbn [bind].
  apply IH; [|exact Hs']. intros s0 y Hy. apply H. right. exact Hy.
Qed.

Lemma findall3_no_bs i d r s a b c :
  all_chars no_bs s = true -> In (a, b, c) (findall3 i d r s) ->
  all_chars no_bs a = true /\ all_chars no_bs b = true /\ all_chars no_bs c = true.
Proof.
  intros Hs Hin. unfold findall3 in Hin. apply in_map_iff in Hin as [[p st] [He _]].
  assert (Ha : a = group s p st 1) by congruence.
  assert (Hb : b = group s p st 2) by congruence.
  assert (Hc : c = group s p st 3) by congruence.
  subst a b c. repeat split; apply group_chars, Hs.
Qed.

Lemma clean_in qr k v :
  clean_results qr = true -> In (k, v) qr ->
  exists rows, v = VList rows /\ forallb row_clean rows = true.
Proof.
  intros Hr Hin. unfold clean_results in Hr. rewrite forallb_forall in Hr.
  specialize (Hr _ Hin). simpl in Hr. destruct v; try discriminate. eauto.
Qed.

Lemma resolve_in qr c v : Renderer.resolve_collection qr c = Some v -> exists k, In (k, v) qr.
Proof.
  unfold Renderer.resolve_collection.
  destruct (dict_get qr c) as [x|] eqn:Eg.
  - intros H. injection H as <-. exists c. exact (dict_get_in _ _ _ Eg).
  - destruct (find _ qr) as [[k x]|] eqn:Ef; [|discriminate].
    intros H. injection H as <-. apply find_some in Ef as [Hin _]. eauto.
Qed.

Lemma row_access r k :
  row_clean r = true ->
  exists b, py_in k r = Ok b /\
    (b = true -> exists x, py_getitem r k = Ok x /\ all_chars no_bs (py_str x) = true).
Proof.
  destruct r as [| | | | |fs]; try discriminate. intros Hr.
  simpl in Hr. apply andb_true_iff in Hr as [_ Hf]. rewrite forallb_forall in Hf.
  exists (existsb (fun kv => String.eqb (fst kv) k) fs). split; [reflexivity|].
  intros Hb. apply existsb_exists in Hb as [[k' x] [Hin Hk]].
  simpl. destruct (find (fun kv => String.eqb (fst kv) k) fs) as [[k1 x1]|] eqn:E.
  - exists x1. split; [reflexivity|]. apply find_some in E as [Hin1 _]. exact (Hf _ Hin1).
  - exfalso. pose proof (find_none _ _ E (k', x) Hin) as Hn. simpl in Hn, Hk. congruence.
Qed.

Lemma row_str_clean r : row_clean r = true -> all_chars no_bs (py_str r) = true.
Proof. destruct r; try discriminate. simpl. intros H. apply andb_true_iff in H as [H _]. exact H. Qed.

Ltac sub_done :=
  match goal with
  | |- exists s', sub ?i ?d ?r ?repl ?s = Ok s' /\ _ => apply sub_clean; assumption
  | |- exists s', Ok ?s = Ok s' /\ _ => eexists; split; [reflexivity | assumption]
  end.

Lemma item_step_clean v i item acc r :
  row_clean item = true -> all_chars no_bs acc = true ->
  exists s', Renderer.item_step v i item acc r = Ok s' /\ all_chars no_bs s' = true.
Proof.
  intros Hi Ha. unfold Renderer.item_step.
  destruct (split_on "." r) as [|p0 [|p1 l]]; [sub_done|sub_done|].
  destruct (String.eqb p0 v).
  - destruct (row_access item p1 Hi) as [b [-> Hg]]. cbn [bind].
    destruct b; [|sub_done]. destruct (Hg eq_refl) as [x [-> Hx]]. cbn [bind]. sub_done.
  - destruct (String.eqb p0 "loop"); [destruct (String.eqb p1 "index")|]; try sub_done.
    apply sub_clean; [|exact Ha]. cbn [all_chars]. rewrite Templates.dec_no_bs. reflexivity.
Qed.

Lemma render_items_clean v b i items :
  forallb row_clean items = true -> all_chars no_bs b = true ->
  exists rs, Renderer.render_items v b i items = Ok rs /\
             Forall (fun s => all_chars no_bs s = true) rs.
Proof.
  revert i. induction items as [|it its IH]; intros i H Hb; simpl; [eauto|].
  simpl in H. apply andb_true_iff in H as [H1 H2].
  unfold Renderer.render_item.
  destruct (fold_res_inv (fun s => all_chars no_bs s = true) (Renderer.item_step v i it)
              (findall1 false false Renderer.var_pattern b) b) as [r [-> Hr]];
    [intros s x _ Hs; exact (item_step_clean v i it s x H1 Hs) | exact Hb|].
  cbn [bind]. destruct (IH (S i) H2 Hb) as [rs [-> Hrs]]. cbn [bind]. eauto.
Qed.

(** [render_template] of [layers/template_renderer.py] never raises when
    the template has no backslash and the query results are lists of dict
    rows whose [str()], and whose field values' [str()], have none; the
    rendered text then has no backslash either. *)
Theorem renderer_total_without_backslash qr t :
  clean_results qr = true -> all_chars no_bs t = true ->
  exists r, Renderer.render_template t qr = Ok r /\ all_chars no_bs r = true.
Proof.
  intros Hq Ht. unfold Renderer.render_template, Renderer.array_pass,
    Renderer.simple_pass, Renderer.loop_pass.
  destruct (fold_res_inv (fun s => all_chars no_bs s = true) (Renderer.array_step qr)
              (findall3 false false Renderer.array_pattern t) t) as [r1 [-> H1]];
    [|exact Ht|].
  { intros s [[key index_s] field] _ Hs. unfold Renderer.array_step.
    destruct (dict_get qr key) as [v|] eqn:Eg; [|sub_done].
    destruct (clean_in qr key v Hq (dict_get_in _ _ _ Eg)) as [rows [-> Hr]].
    destruct (Nat.ltb (int_digits index_s) (length rows)) eqn:El; [|sub_done].
    apply Nat.ltb_lt in El. rewrite forallb_forall in Hr.
    pose proof (Hr _ (nth_In rows VNone El)) as Hrow. unfold nth_row.
    destruct (row_access (nth (int_digits index_s) rows VNone) field Hrow) as [b [-> Hg]].
    cbn [bind]. destruct b; [|sub_done]. destruct (Hg eq_refl) as [x [-> Hx]]. cbn [bind]. sub_done. }
  cbn [bind].
  destruct (fold_res_inv (fun s => all_chars no_bs s = true) (Renderer.simple_step qr)
              (findall1 false false Renderer.simple_pattern r1) r1) as [r2 [-> H2]];
    [|exact H1|].
  { intros s p _ Hs. unfold Renderer.simple_step.
    destruct (split_on "." (py_strip p)) as [|key [|field [|c l]]]; try sub_done.
    - destruct (dict_get qr key) as [v|] eqn:Eg; [|sub_done].
      destruct (clean_in qr key v Hq (dict_get_in _ _ _ Eg)) as [rows [-> Hr]].
      apply sub_clean; [|exact Hs].
      destruct rows as [|r0 rs]; [reflexivity|].
      simpl in Hr. apply andb_true_iff in Hr as [Hr _]. apply row_str_clean, Hr.
    - destruct (contains "[" key); [sub_done|].
      destruct (dict_get qr key) as [v|] eqn:Eg; [|sub_done].
      destruct (clean_in qr key v Hq (dict_get_in _ _ _ Eg)) as [rows [-> Hr]].
      destruct rows as [|r0 rs]; [sub_done|].
      simpl in Hr. apply andb_true_iff in Hr as [Hr _].
      destruct (row_access r0 field Hr) as [b [-> Hg]]. cbn [bind].
      destruct b; [|sub_done]. destruct (Hg eq_refl) as [x [-> Hx]]. cbn [bind]. sub_done. }
  cbn [bind].
  apply (fold_res_inv (fun s => all_chars no_bs s = true)); [|exact H2].
  intros s [[v c] b] Hin Hs. unfold Renderer.loop_step.
  destruct (findall3_no_bs _ _ _ _ _ _ _ H2 Hin) as (_ & _ & Hb).
  destruct (Renderer.resolve_collection qr c) as [x|] eqn:Er; [|sub_done].
  destruct (resolve_in qr c x Er) as [k Hk].
  destruct (clean_in qr k x Hq Hk) as [rows [-> Hr]].
  destruct rows as [|r0 rs]; [sub_done|].
  destruct (render_items_clean v b 0 (r0 :: rs) Hr Hb) as [out [-> Hout]]. cbn [bind].
  apply sub_clean; [apply Templates.concat_no_bs, Hout | exact Hs].
Qed.

Lemma renderer_total_without_backslash_witness :
  exists r, Renderer.render_template
              "{{rows.name}}: {% for r in rows %}{{r.name}} #{{loop.index}}{% endfor %}"
              [("rows", VList [VDict [("name", VStr "Acme")]; VDict [("name", VStr "Zeta")]])]
            = Ok r /\ all_chars no_bs r = true.
Proof. apply renderer_total_without_backslash; reflexivity. Defined.

End RendererTotal.
